(** * QuestionBase: the base class of all survey questions

    A shallow embedding of [src/questionbase.ts].  The class is a mutable
    object whose methods fire single-slot callbacks, notify the owning
    survey, build a condition runner and ask the custom widget collection
    for a widget.  Methods are embedded in a small state-and-exception
    monad over the object ([this]) and a trace of the calls that leave the
    object.

    Conventions.
    - TypeScript [number] is embedded as [Z] (the properties concerned hold
      integers: indents, the visible index); the question counter, which
      is only incremented, stops at 2^53 as a double does.
    - A callback is an opaque observer: calling it is recorded in the
      trace and does not itself change the question.
    - Objects of the style sheet are embedded by value. *)

From stdpp Require Import gmap strings list fin_maps pretty.

#[local] Open Scope Z_scope.
#[local] Open Scope string_scope.
#[local] Open Scope list_scope.

(** ** Values of the property hash and of a [HashTable<any>] *)

Inductive Value :=
| VBool (b : bool)
| VStr (s : string)
| VNum (n : Z).

#[global] Instance Value_eq_dec : EqDecision Value.
Proof. solve_decision. Defined.

(** JavaScript [ToBoolean] on the values above. *)
Definition truthy (v : Value) : bool :=
  match v with
  | VBool b => b
  | VStr s => negb (String.eqb s "")
  | VNum n => negb (Z.eqb n 0)
  end.

(** A getter declared [: boolean], [: string] or [: number] reads the hash
    at that type. *)
Definition as_boolean (v : Value) : bool := truthy v.
Definition as_string (v : Value) : string :=
  match v with VStr s => s | _ => "" end.
Definition as_number (v : Value) : Z :=
  match v with VNum n => n | _ => 0 end.

(** ** Style sheets

    An entry of a style sheet is a class name, a number (the standard sheet
    has [indent: 20]) or a nested object. *)

#[warnings="-register-all"]
Inductive Css :=
| CssStr (s : string)
| CssNum (n : Z)
| CssObj (fields : gmap string Css).

(** [!source] *)
Definition css_falsy (source : option Css) : bool :=
  match source with
  | None => true
  | Some (CssStr s) => String.eqb s ""
  | Some (CssNum n) => Z.eqb n 0
  | Some (CssObj _) => false
  end.

(** ** Collaborators *)

(** A callback [() => void], known by its identity. *)
Definition Callback := nat.

(** Truthiness of a reference that may be null or undefined. *)
Definition defined {A} (o : option A) : bool :=
  match o with Some _ => true | None => false end.

(** [QuestionCustomWidget], known by its name. *)
Record QuestionCustomWidget := { widgetName : string }.

(** The part of [ISurvey] that [QuestionBase] uses.  [isDesignMode] is the
    survey's flag; [updateQuestionCssClasses] is what the survey's handler
    does to the [classes] object of the question of the given name. *)
Record Survey := {
  isDesignMode_of : bool;
  getLocale_of : string;
  updateQuestionCssClasses_of : string -> gmap string Css -> gmap string Css
}.

Record ConditionRunner := { expression : string }.

(** The single-slot callback fields of the class. *)
Inductive Hook :=
| focusCallback_
| renderWidthChangedCallback_
| rowVisibilityChangedCallback_
| startWithNewLineChangedCallback_
| visibilityChangedCallback_
| visibleIndexChangedCallback_
| readOnlyChangedCallback_
| surveyLoadCallback_.

#[global] Instance Hook_eq_dec : EqDecision Hook.
Proof. solve_decision. Defined.

(** ** The object *)

Record QuestionBase := {
  name : string;
  propertyHash : gmap string Value;          (* Base *)
  survey : option Survey;                    (* SurveyElement *)
  conditionRunner : option ConditionRunner;
  isCustomWidgetRequested : bool;
  customWidgetValue : option QuestionCustomWidget;
  localeChanged : list Callback;
  callbacks : Hook -> option Callback
}.

Definition focusCallback q := callbacks q focusCallback_.
Definition renderWidthChangedCallback q := callbacks q renderWidthChangedCallback_.
Definition rowVisibilityChangedCallback q := callbacks q rowVisibilityChangedCallback_.
Definition startWithNewLineChangedCallback q := callbacks q startWithNewLineChangedCallback_.
Definition visibilityChangedCallback q := callbacks q visibilityChangedCallback_.
Definition visibleIndexChangedCallback q := callbacks q visibleIndexChangedCallback_.
Definition readOnlyChangedCallback q := callbacks q readOnlyChangedCallback_.
Definition surveyLoadCallback q := callbacks q surveyLoadCallback_.

Definition with_propertyHash (h : gmap string Value) (q : QuestionBase) :=
  {| name := name q; propertyHash := h; survey := survey q;
     conditionRunner := conditionRunner q;
     isCustomWidgetRequested := isCustomWidgetRequested q;
     customWidgetValue := customWidgetValue q;
     localeChanged := localeChanged q; callbacks := callbacks q |}.

Definition with_conditionRunner (r : option ConditionRunner) (q : QuestionBase) :=
  {| name := name q; propertyHash := propertyHash q; survey := survey q;
     conditionRunner := r;
     isCustomWidgetRequested := isCustomWidgetRequested q;
     customWidgetValue := customWidgetValue q;
     localeChanged := localeChanged q; callbacks := callbacks q |}.

Definition with_isCustomWidgetRequested (b : bool) (q : QuestionBase) :=
  {| name := name q; propertyHash := propertyHash q; survey := survey q;
     conditionRunner := conditionRunner q;
     isCustomWidgetRequested := b;
     customWidgetValue := customWidgetValue q;
     localeChanged := localeChanged q; callbacks := callbacks q |}.

Definition with_customWidgetValue (w : option QuestionCustomWidget) (q : QuestionBase) :=
  {| name := name q; propertyHash := propertyHash q; survey := survey q;
     conditionRunner := conditionRunner q;
     isCustomWidgetRequested := isCustomWidgetRequested q;
     customWidgetValue := w;
     localeChanged := localeChanged q; callbacks := callbacks q |}.

Definition with_callback (h : Hook) (cb : option Callback) (q : QuestionBase) :=
  {| name := name q; propertyHash := propertyHash q; survey := survey q;
     conditionRunner := conditionRunner q;
     isCustomWidgetRequested := isCustomWidgetRequested q;
     customWidgetValue := customWidgetValue q;
     localeChanged := localeChanged q;
     callbacks := fun h' => if decide (h' = h) then cb else callbacks q h' |}.

Definition with_survey (s : option Survey) (q : QuestionBase) :=
  {| name := name q; propertyHash := propertyHash q; survey := s;
     conditionRunner := conditionRunner q;
     isCustomWidgetRequested := isCustomWidgetRequested q;
     customWidgetValue := customWidgetValue q;
     localeChanged := localeChanged q; callbacks := callbacks q |}.

(** ** Trace, outcomes and the method monad *)

Inductive Event :=
| Called (cb : Callback)
    (* a callback was invoked *)
| LocaleHandlerCalled (cb : Callback) (locale : string)
    (* a handler of [localeChanged] was invoked *)
| QuestionVisibilityChanged (question : string) (newValue : bool)
    (* survey.questionVisibilityChanged(this, this.visible) *)
| UpdateQuestionCssClasses (question : string)
    (* survey.updateQuestionCssClasses(this, classes) *)
| NewConditionRunner (expr : string)
    (* new ConditionRunner(expr) *)
| RunnerRun (expr : string) (values : gmap string Value)
    (* conditionRunner.run(values) *)
| GetCustomWidget (question : string)
    (* CustomWidgetCollection.Instance.getCustomWidget(this) *).

Inductive Exn :=
| EvaluatorError
| ResolverError
| TypeError.

Inductive Outcome (A : Type) :=
| Ret (a : A)
| Throw (e : Exn).
Arguments Ret {A} a.
Arguments Throw {A} e.

Record Mem := { this : QuestionBase; trace : list Event }.

Definition M (A : Type) := Mem -> Outcome A * Mem.

#[global] Instance M_ret : MRet M := fun A a m => (Ret a, m).
#[global] Instance M_bind : MBind M := fun A B f c m =>
  match c m with
  | (Ret a, m') => f a m'
  | (Throw e, m') => (Throw e, m')
  end.

Definition throw {A} (e : Exn) : M A := fun m => (Throw e, m).
Definition get_this : M QuestionBase := fun m => (Ret (this m), m).
Definition update_this (f : QuestionBase -> QuestionBase) : M unit :=
  fun m => (Ret tt, {| this := f (this m); trace := trace m |}).
Definition emit (e : Event) : M unit :=
  fun m => (Ret tt, {| this := this m; trace := trace m ++ [e] |}).
Definition lift_outcome {A} (o : Outcome A) : M A := fun m => (o, m).

Definition read {A} (f : QuestionBase -> A) : M A := fun m => (Ret (f (this m)), m).

#[global] Instance Outcome_ret : MRet Outcome := fun A a => Ret a.
#[global] Instance Outcome_bind : MBind Outcome := fun A B f o =>
  match o with
  | Ret a => f a
  | Throw e => Throw e
  end.

(** ** The property store of the base class *)

(** Modelled from the spec: [getPropertyValue] of the base class [Base]
    (base.ts is not among the sources).  "get(name, default) returns the
    stored value or default if never set"; without a default an unset
    property reads as absent ([None]). *)
Definition getPropertyValue (q : QuestionBase) (name : string)
    (defaultValue : option Value) : option Value :=
  match propertyHash q !! name with
  | Some v => Some v
  | None => defaultValue
  end.

(** Modelled from the spec: [setPropertyValue] of the base class [Base]
    (base.ts is not among the sources).  "set(name, value) stores
    unconditionally". *)
Definition setPropertyValue (name : string) (val : Value) : M unit :=
  update_this (fun q => with_propertyHash (<[name := val]> (propertyHash q)) q).

Definition to_boolean (v : option Value) : bool :=
  match v with Some v => as_boolean v | None => false end.
Definition to_string (v : option Value) : string :=
  match v with Some v => as_string v | None => "" end.
Definition to_number (v : option Value) : Z :=
  match v with Some v => as_number v | None => 0 end.

(** ** Getters *)

Definition getType (q : QuestionBase) : string := "questionbase".
Definition isPanel (q : QuestionBase) : bool := false.

Definition visible (q : QuestionBase) : bool :=
  to_boolean (getPropertyValue q "visible" (Some (VBool true))).
Definition visibleIf (q : QuestionBase) : string :=
  to_string (getPropertyValue q "visibleIf" (Some (VStr ""))).
Definition visibleIndex (q : QuestionBase) : Z :=
  to_number (getPropertyValue q "visibleIndex" (Some (VNum (-1)))).
Definition id (q : QuestionBase) : string :=
  to_string (getPropertyValue q "id" None).
Definition startWithNewLine (q : QuestionBase) : bool :=
  to_boolean (getPropertyValue q "startWithNewLine" (Some (VBool true))).
Definition width (q : QuestionBase) : string :=
  to_string (getPropertyValue q "width" (Some (VStr ""))).
Definition renderWidth (q : QuestionBase) : string :=
  to_string (getPropertyValue q "renderWidth" (Some (VStr ""))).
Definition indent (q : QuestionBase) : Z :=
  to_number (getPropertyValue q "indent" (Some (VNum 0))).
Definition rightIndent (q : QuestionBase) : Z :=
  to_number (getPropertyValue q "rightIndent" (Some (VNum 0))).

(** [this.survey && this.survey.isDesignMode].  [&&] yields its left
    operand when that operand is falsy: without a survey the getter returns
    the absent reference itself ([None]: undefined), not [false], whatever
    the type it is declared with. *)
Definition isDesignMode (q : QuestionBase) : option bool :=
  match survey q with
  | Some s => Some (isDesignMode_of s)
  | None => None
  end.

(** [this.visible || this.isDesignMode]: [true] when [visible] is, and
    otherwise whatever [isDesignMode] returns. *)
Definition isVisible (q : QuestionBase) : option bool :=
  if visible q then Some true else isDesignMode q.

(** JavaScript [ToBoolean] on such a result. *)
Definition is_truthy (r : option bool) : bool :=
  match r with
  | Some b => b
  | None => false
  end.

Definition isReadOnly (q : QuestionBase) : bool := true.
Definition hasErrors (q : QuestionBase) (fireCallback : bool) : bool := false.
Definition currentErrorCount (q : QuestionBase) : Z := 0.
Definition hasTitle (q : QuestionBase) : bool := false.
Definition hasDescription (q : QuestionBase) : bool := false.
Definition hasInput (q : QuestionBase) : bool := false.
Definition hasComment (q : QuestionBase) : bool := false.
(** [SurveyError] is opaque here: the base class never builds one. *)
Definition getAllErrors (q : QuestionBase) : list string := [].
Definition supportGoNextPageAutomatic (q : QuestionBase) : bool := false.
Definition displayValue (q : QuestionBase) : string := "".

Definition getLocale (q : QuestionBase) : string :=
  match survey q with
  | Some s => getLocale_of s
  | None => ""
  end.

(** ** Setters and notification entry points *)

Definition fireCallback (callback : option Callback) : M unit :=
  match callback with
  | Some cb => emit (Called cb)
  | None => mret tt
  end.

Definition set_visible (val : bool) : M unit :=
  cur ← read visible;
  if Bool.eqb val cur then mret tt else
  setPropertyValue "visible" (VBool val);;
  cb ← read visibilityChangedCallback; fireCallback cb;;
  cb ← read rowVisibilityChangedCallback; fireCallback cb;;
  q ← get_this;
  match survey q with
  | Some s => emit (QuestionVisibilityChanged (name q) (visible q))
  | None => mret tt
  end.

Definition set_visibleIf (val : string) : M unit :=
  setPropertyValue "visibleIf" (VStr val).

Definition set_id (val : string) : M unit :=
  setPropertyValue "id" (VStr val).

Definition set_startWithNewLine (val : bool) : M unit :=
  cur ← read startWithNewLine;
  if Bool.eqb cur val then mret tt else
  setPropertyValue "startWithNewLine" (VBool val);;
  cb ← read startWithNewLineChangedCallback;
  match cb with
  | Some cb => emit (Called cb)
  | None => mret tt
  end.

Definition set_width (val : string) : M unit :=
  setPropertyValue "width" (VStr val).

Definition set_renderWidth (val : string) : M unit :=
  cur ← read renderWidth;
  if String.eqb val cur then mret tt else
  setPropertyValue "renderWidth" (VStr val);;
  cb ← read renderWidthChangedCallback; fireCallback cb.

Definition set_indent (val : Z) : M unit :=
  cur ← read indent;
  if Z.eqb val cur then mret tt else
  setPropertyValue "indent" (VNum val);;
  cb ← read renderWidthChangedCallback; fireCallback cb.

Definition set_rightIndent (val : Z) : M unit :=
  cur ← read rightIndent;
  if Z.eqb val cur then mret tt else
  setPropertyValue "rightIndent" (VNum val);;
  cb ← read renderWidthChangedCallback; fireCallback cb.

Definition focus (onError : bool) : M unit := mret tt.
Definition onCreating : M unit := mret tt.
Definition onSurveyValueChanged (newValue : Value) : M unit := mret tt.
Definition clearUnusedValues : M unit := mret tt.
Definition onReadOnlyChanged : M unit := mret tt.
Definition onAnyValueChanged (name : string) : M unit := mret tt.

Definition onSurveyLoad : M unit :=
  cb ← read surveyLoadCallback; fireCallback cb.

Definition setVisibleIndex (val : Z) : M Z :=
  cur ← read visibleIndex;
  if Z.eqb cur val then mret 1 else
  setPropertyValue "visibleIndex" (VNum val);;
  cb ← read visibleIndexChangedCallback; fireCallback cb;;
  mret 1.

(** [this.localeChanged.fire(this, this.getLocale())]: every handler of the
    event is called with the question and the locale. *)
Definition onLocaleChanged : M unit :=
  q ← get_this;
  foldr (fun cb rest => emit (LocaleHandlerCalled cb (getLocale q));; rest)
        (mret tt) (localeChanged q).

(** ** Style classes *)

Definition css_get (c : Css) (key : string) : option Css :=
  match c with
  | CssObj m => m !! key
  | _ => None
  end.

(** [dest[key] = v].  The file is a module, hence strict code: creating a
    property on a primitive throws a TypeError. *)
Definition setProp (dest : Css) (key : string) (v : Css) : Outcome Css :=
  match dest with
  | CssObj m => Ret (CssObj (<[key := v]> m))
  | _ => Throw TypeError
  end.

(** [for (var key in source) dest[key] = source[key]].  The keys of
    [source] are distinct, so the order of the loop does not show in the
    object it builds. *)
Definition copyKeys (dest : Css) (source : gmap string Css) : Outcome Css :=
  map_fold (fun key v acc => d ← acc; setProp d key v) (Ret dest) source.

Definition copyCssClasses (dest : Css) (source : option Css) : Outcome Css :=
  if css_falsy source then Ret dest else
  match source with
  | Some (CssStr s) => setProp dest "root" (CssStr s)
  | Some (CssObj m) => copyKeys dest m
  | Some (CssNum _) => Ret dest        (* a number has no enumerable key *)
  | None => Ret dest
  end.

Definition updateCssClasses (q : QuestionBase) (res : Css)
    (surveyCss : gmap string Css) : Outcome Css :=
  match surveyCss !! getType q with
  | None => Ret res
  | Some (CssStr s) => setProp res "root" (CssStr s)
  | Some (CssObj m) => copyKeys res m
  | Some (CssNum _) => Ret res
  end.

Definition getRootCss (classes : Css) : option Css :=
  match css_get classes "question" with
  | Some question => css_get question "root"
  | None => None
  end.

(** ** Methods that call the collaborators *)

Section Collaborators.

(** [ConditionRunner.run]: the expression evaluator, given the text of
    the expression and the values; it may throw. *)
Variable evaluate : string -> gmap string Value -> Outcome bool.

(** [CustomWidgetCollection.Instance.getCustomWidget]; it may throw. *)
Variable getCustomWidget : QuestionBase -> Outcome (option QuestionCustomWidget).

(** [surveyCss.getCss()]: the current style sheet. *)
Variable getCss : gmap string Css.

Definition ConditionRunner_run (values : gmap string Value) : M bool :=
  r ← read conditionRunner;
  match r with
  | Some r =>
      emit (RunnerRun (expression r) values);;
      lift_outcome (evaluate (expression r) values)
  | None => throw TypeError
  end.

Definition runCondition (values : gmap string Value) : M unit :=
  vi ← read visibleIf;
  if String.eqb vi "" then mret tt else
  r ← read conditionRunner;
  match r with
  | None =>
      vi ← read visibleIf;
      emit (NewConditionRunner vi);;
      update_this (with_conditionRunner (Some {| expression := vi |}))
  | Some _ => mret tt
  end;;
  vi ← read visibleIf;
  update_this (with_conditionRunner (Some {| expression := vi |}));;
  b ← ConditionRunner_run values;
  set_visible b.

Definition updateCustomWidget : M unit :=
  q ← get_this;
  emit (GetCustomWidget (name q));;
  w ← lift_outcome (getCustomWidget q);
  update_this (with_customWidgetValue w).

Definition customWidget : M (option QuestionCustomWidget) :=
  requested ← read isCustomWidgetRequested;
  w ← read customWidgetValue;
  (if negb requested && negb (defined w) then
     update_this (with_isCustomWidgetRequested true);;
     updateCustomWidget
   else mret tt);;
  read customWidgetValue.

Definition cssClasses : M Css :=
  let surveyCss := getCss in
  q ← get_this;
  classes ← lift_outcome
    (copyCssClasses (CssObj {[ "error" := CssObj ∅ ]}) (surveyCss !! "question"));
  classes ← lift_outcome
    (match css_get classes "error" with
     | Some error =>
         error ← copyCssClasses error (surveyCss !! "error");
         setProp classes "error" error     (* [classes.error] is updated in place *)
     | None => Throw TypeError
     end);
  classes ← lift_outcome (updateCssClasses q classes surveyCss);
  match survey q with
  | Some s =>
      emit (UpdateQuestionCssClasses (name q));;
      mret (match classes with
            | CssObj m => CssObj (updateQuestionCssClasses_of s (name q) m)
            | _ => classes
            end)
  | None => mret classes
  end.

End Collaborators.

(** ** Construction and the question counter *)

(** [private static questionCounter = 100] *)
Definition questionCounter_init : Z := 100.

(** The counter is a [number], a double.  It starts at 100 and is only
    ever incremented, so it holds an integer from 100 up to 2^53.  Below
    2^53 the increment is exact; at 2^53 the sum 2^53 + 1 is not a double
    and rounds back to 2^53, so the counter stays there. *)
Definition max_exact : Z := 2 ^ 53.

(** [n++] on the values the counter can hold. *)
Definition increment (n : Z) : Z :=
  if Z.ltb n max_exact then n + 1 else n.

(** [return "sq_" + QuestionBase.questionCounter++], with the counter
    passed in and handed back.  An integer up to 2^53 is printed with all
    its digits. *)
Definition getQuestionId (questionCounter : Z) : string * Z :=
  ("sq_" +:+ pretty questionCounter, increment questionCounter).

(** The object as the field initialisers and [super()] leave it. *)
Definition blank (name : string) : QuestionBase :=
  {| name := name; propertyHash := ∅; survey := None;
     conditionRunner := None;
     isCustomWidgetRequested := false;
     customWidgetValue := None;
     localeChanged := [];
     callbacks := fun _ => None |}.

(** [new QuestionBase(name)] *)
Definition new_QuestionBase (name : string) (questionCounter : Z)
    : QuestionBase * Z :=
  let '(newId, questionCounter) := getQuestionId questionCounter in
  let m := {| this := blank name; trace := [] |} in
  let m := (set_id newId m).2 in
  let m := (onCreating m).2 in
  (this m, questionCounter).

(** ** Operations of a client on one question *)

Inductive Op :=
| SetVisible (val : bool)
| SetVisibleIf (val : string)
| SetId (val : string)
| SetStartWithNewLine (val : bool)
| SetWidth (val : string)
| SetRenderWidth (val : string)
| SetIndent (val : Z)
| SetRightIndent (val : Z)
| SetVisibleIndex (val : Z)
| Focus (onError : bool)
| RunCondition (values : gmap string Value)
| OnSurveyValueChanged (newValue : Value)
| OnSurveyLoad
| ClearUnusedValues
| OnLocaleChanged
| OnReadOnlyChanged
| OnAnyValueChanged (name : string)
| ReadCustomWidget
| UpdateCustomWidget
| ReadCssClasses
| AssignCallback (h : Hook) (cb : option Callback)
| AttachSurvey (s : option Survey).

Definition is_SetId (op : Op) : bool :=
  match op with SetId _ => true | _ => false end.
Definition is_ReadCustomWidget (op : Op) : bool :=
  match op with ReadCustomWidget => true | _ => false end.
Definition is_UpdateCustomWidget (op : Op) : bool :=
  match op with UpdateCustomWidget => true | _ => false end.

Section Runs.

Variable evaluate : string -> gmap string Value -> Outcome bool.
Variable getCustomWidget : QuestionBase -> Outcome (option QuestionCustomWidget).
Variable getCss : gmap string Css.

Definition run_op (op : Op) : M unit :=
  match op with
  | SetVisible val => set_visible val
  | SetVisibleIf val => set_visibleIf val
  | SetId val => set_id val
  | SetStartWithNewLine val => set_startWithNewLine val
  | SetWidth val => set_width val
  | SetRenderWidth val => set_renderWidth val
  | SetIndent val => set_indent val
  | SetRightIndent val => set_rightIndent val
  | SetVisibleIndex val => setVisibleIndex val;; mret tt
  | Focus onError => focus onError
  | RunCondition values => runCondition evaluate values
  | OnSurveyValueChanged v => onSurveyValueChanged v
  | OnSurveyLoad => onSurveyLoad
  | ClearUnusedValues => clearUnusedValues
  | OnLocaleChanged => onLocaleChanged
  | OnReadOnlyChanged => onReadOnlyChanged
  | OnAnyValueChanged name => onAnyValueChanged name
  | ReadCustomWidget => customWidget getCustomWidget;; mret tt
  | UpdateCustomWidget => updateCustomWidget getCustomWidget
  | ReadCssClasses => cssClasses getCss;; mret tt
  | AssignCallback h cb => update_this (with_callback h cb)
  | AttachSurvey s => update_this (with_survey s)
  end.

(** A client runs operations one after the other; an exception ends the
    operation that raised it and the client goes on. *)
Fixpoint run_ops (ops : list Op) (m : Mem) : Mem :=
  match ops with
  | [] => m
  | op :: ops => run_ops ops (run_op op m).2
  end.

(** *** A process: the static counter and the questions built so far *)

Record Process := {
  questionCounter : Z;
  questions : list QuestionBase;
  log : list Event
}.

Inductive Action :=
| New (name : string)
| On (i : nat) (op : Op).

Definition start : Process :=
  {| questionCounter := questionCounter_init; questions := []; log := [] |}.

Definition act (a : Action) (p : Process) : Process :=
  match a with
  | New name =>
      let '(q, c) := new_QuestionBase name (questionCounter p) in
      {| questionCounter := c; questions := questions p ++ [q]; log := log p |}
  | On i op =>
      match questions p !! i with
      | Some q =>
          let m := (run_op op {| this := q; trace := log p |}).2 in
          {| questionCounter := questionCounter p;
             questions := <[i := this m]> (questions p);
             log := trace m |}
      | None => p
      end
  end.

Definition acts (l : list Action) (p : Process) : Process :=
  foldl (fun p a => act a p) p l.

End Runs.

(** Number of calls of the widget collection in a trace. *)
Definition is_resolver_call (e : Event) : bool :=
  match e with GetCustomWidget _ => true | _ => false end.

Fixpoint resolver_calls (t : list Event) : nat :=
  match t with
  | [] => 0%nat
  | e :: t => ((if is_resolver_call e then 1 else 0) + resolver_calls t)%nat
  end.

(** ** Vocabulary of the statements *)

(** What one firing of a callback slot adds to the trace. *)
Definition fired (callback : option Callback) : list Event :=
  match callback with
  | Some cb => [Called cb]
  | None => []
  end.

(** What the notification of the survey, if any, adds to the trace. *)
Definition notified (q : QuestionBase) (val : bool) : list Event :=
  match survey q with
  | Some _ => [QuestionVisibilityChanged (name q) val]
  | None => []
  end.

(** What the lazy construction of the condition runner adds to the trace. *)
Definition constructed (q : QuestionBase) (expr : string) : list Event :=
  match conditionRunner q with
  | None => [NewConditionRunner expr]
  | Some _ => []
  end.

(** The question after [setPropertyValue(key, v)]. *)
Definition stored (key : string) (v : Value) (q : QuestionBase) : QuestionBase :=
  with_propertyHash (<[key := v]> (propertyHash q)) q.

(** Does [copyCssClasses(dest, source)] assign to a property of [dest]? *)
Definition writes (source : option Css) : bool :=
  negb (css_falsy source) &&
  match source with
  | Some (CssStr _) => true
  | Some (CssObj m) => negb (bool_decide (m = ∅))
  | _ => false
  end.

(** [classes.error] as the copy of the generic [question] group leaves it:
    the fresh empty object, unless the group has an [error] entry of its
    own. *)
Definition error_slot (surveyCss : gmap string Css) : Css :=
  match surveyCss !! "question" with
  | Some (CssObj m) => default (CssObj ∅) (m !! "error")
  | _ => CssObj ∅
  end.

(** The copy of the generic [error] group has an object to write into, or
    nothing to write. *)
Definition error_slot_ok (surveyCss : gmap string Css) : bool :=
  match error_slot surveyCss with
  | CssObj _ => true
  | _ => negb (writes (surveyCss !! "error"))
  end.

(** *** Frames: what a method leaves as it is *)

(** Every run of [c] relates the memory before to the memory after. *)
Definition preserves (R : Mem -> Mem -> Prop) {A} (c : M A) : Prop :=
  forall m, R m (c m).2.

Definition same_id (m m' : Mem) : Prop := id (this m') = id (this m).

Definition same_widget (m m' : Mem) : Prop :=
  isCustomWidgetRequested (this m') = isCustomWidgetRequested (this m) ∧
  customWidgetValue (this m') = customWidgetValue (this m) ∧
  resolver_calls (trace m') = resolver_calls (trace m).

Definition requested_stays (m m' : Mem) : Prop :=
  isCustomWidgetRequested (this m) = true ->
  isCustomWidgetRequested (this m') = true.

(** The guard of the [customWidget] getter: a read would call the widget
    collection. *)
Definition pending (q : QuestionBase) : nat :=
  if negb (isCustomWidgetRequested q) && negb (defined (customWidgetValue q))
  then 1%nat else 0%nat.

Definition no_more_calls (m m' : Mem) : Prop :=
  (resolver_calls (trace m') + pending (this m')
   <= resolver_calls (trace m) + pending (this m))%nat.

(** The value of the counter when the question of index [i] is built. *)
Definition counter_at (i : nat) : Z :=
  Z.min (questionCounter_init + Z.of_nat i) max_exact.

(** The counter of a process has counted its questions. *)
Definition counter_counts (p : Process) : Prop :=
  questionCounter p = counter_at (length (questions p)).

(** The question of index [i], if the process has it already, has the id
    the constructor gave it. *)
Definition id_as_constructed (i : nat) (p : Process) : Prop :=
  counter_counts p ∧
  forall q, questions p !! i = Some q -> id q = "sq_" +:+ pretty (counter_at i).

(** The object that [copyCssClasses] makes of the object [dest]. *)
Definition layered (source : option Css) (dest : gmap string Css) : gmap string Css :=
  if css_falsy source then dest else
  match source with
  | Some (CssStr s) => <["root" := CssStr s]> dest
  | Some (CssObj m) => m ∪ dest
  | _ => dest
  end.

(** [classes] before the per-type override, when the copy of the generic
    [error] group goes through. *)
Definition generic_classes (surveyCss : gmap string Css) : gmap string Css :=
  let classes := layered (surveyCss !! "question") {[ "error" := CssObj ∅ ]} in
  match error_slot surveyCss with
  | CssObj error => <["error" := CssObj (layered (surveyCss !! "error") error)]> classes
  | error => <["error" := error]> classes
  end.

(** The client assigns the [id] of the question of index [i]. *)
Definition assigns_id_of (i : nat) (a : Action) : bool :=
  match a with
  | On j op => Nat.eqb j i && is_SetId op
  | New _ => false
  end.

(** The client never assigns the [id] of the question of index [i]. *)
Definition leaves_id_of (i : nat) (l : list Action) : bool :=
  forallb (fun a => negb (assigns_id_of i a)) l.

(** *** Sample collaborators and questions *)

(** An evaluator that knows the expression [{x} = 1] only. *)
Definition sample_evaluate (expr : string) (values : gmap string Value)
    : Outcome bool :=
  if String.eqb expr "{x} = 1" then
    Ret (bool_decide (values !! "x" = Some (VNum 1)))
  else Throw EvaluatorError.

Definition sample_getCustomWidget (q : QuestionBase)
    : Outcome (option QuestionCustomWidget) :=
  Ret None.

Definition sample_survey : Survey :=
  {| isDesignMode_of := false; getLocale_of := "en";
     updateQuestionCssClasses_of := fun _ classes => classes |}.

(** A question built first in its process... *)
Definition sample_question : QuestionBase :=
  (new_QuestionBase "q1" questionCounter_init).1.

(** ... with a subscriber in every callback slot and a survey attached. *)
Definition observed_question : QuestionBase :=
  with_survey (Some sample_survey)
    (with_callback visibilityChangedCallback_ (Some 1%nat)
    (with_callback rowVisibilityChangedCallback_ (Some 2%nat)
    (with_callback renderWidthChangedCallback_ (Some 3%nat)
    (with_callback startWithNewLineChangedCallback_ (Some 4%nat)
    (with_callback visibleIndexChangedCallback_ (Some 5%nat)
       sample_question))))).

Definition observed_mem : Mem := {| this := observed_question; trace := [] |}.

(** A question whose [visibleIf] is [{x} = 1] and that is hidden. *)
Definition conditional_question : QuestionBase :=
  stored "visible" (VBool false) (stored "visibleIf" (VStr "{x} = 1") observed_question).

(** The same question, hidden, with no survey and no subscriber. *)
Definition hidden_question : QuestionBase :=
  stored "visible" (VBool false) sample_question.

(** A style sheet with a generic root and a per-type override of it. *)
Definition sample_css : gmap string Css :=
  {[ "question" := CssObj {[ "root" := CssStr "sv_q"; "title" := CssStr "sv_q_title" ]};
     "error" := CssObj {[ "root" := CssStr "sv_q_erbox" ]};
     "questionbase" := CssObj {[ "root" := CssStr "custom-root" ]} ]}.

(** A style sheet whose generic group names a class for [error]. *)
Definition odd_css : gmap string Css :=
  {[ "question" := CssObj {[ "error" := CssStr "sv_q_error" ]};
     "error" := CssObj {[ "root" := CssStr "sv_q_erbox" ]};
     "questionbase" := CssObj {[ "root" := CssStr "custom-root" ]} ]}.

(** ** Vocabulary of the further properties *)

Definition is_Called (e : Event) : bool :=
  match e with Called _ => true | _ => false end.
Definition is_LocaleHandlerCalled (e : Event) : bool :=
  match e with LocaleHandlerCalled _ _ => true | _ => false end.
Definition is_QuestionVisibilityChanged (e : Event) : bool :=
  match e with QuestionVisibilityChanged _ _ => true | _ => false end.
Definition is_UpdateQuestionCssClasses (e : Event) : bool :=
  match e with UpdateQuestionCssClasses _ => true | _ => false end.
Definition is_NewConditionRunner (e : Event) : bool :=
  match e with NewConditionRunner _ => true | _ => false end.
Definition is_RunnerRun (e : Event) : bool :=
  match e with RunnerRun _ _ => true | _ => false end.
Definition no_event (e : Event) : bool := false.
Definition no_key (key : string) : bool := false.

(** Number of the events of a trace that satisfy [p]. *)
Definition count_events (p : Event -> bool) (t : list Event) : nat :=
  length (List.filter p t).

(** What an operation may do: the calls it may make, the keys of the
    property hash it may assign, the fields it may assign. *)
Record Footprint := {
  may_emit : Event -> bool;
  may_store : string -> bool;
  may_set_conditionRunner : bool;
  may_set_isCustomWidgetRequested : bool;
  may_set_customWidgetValue : bool;
  may_set_callbacks : bool;
  may_set_survey : bool
}.

(** [m'] differs from [m] by what [F] allows, at most: the trace has grown
    by allowed calls, and whatever [F] does not allow is as it was.  The
    name of the question and the handlers of [localeChanged] are as they
    were in any case. *)
Definition within (F : Footprint) (m m' : Mem) : Prop :=
  (∃ evs, trace m' = trace m ++ evs ∧ forallb (may_emit F) evs = true) ∧
  (forall key, may_store F key = false ->
               propertyHash (this m') !! key = propertyHash (this m) !! key) ∧
  (may_set_conditionRunner F = false ->
   conditionRunner (this m') = conditionRunner (this m)) ∧
  (may_set_isCustomWidgetRequested F = false ->
   isCustomWidgetRequested (this m') = isCustomWidgetRequested (this m)) ∧
  (may_set_customWidgetValue F = false ->
   customWidgetValue (this m') = customWidgetValue (this m)) ∧
  (may_set_callbacks F = false -> callbacks (this m') = callbacks (this m)) ∧
  (may_set_survey F = false -> survey (this m') = survey (this m)) ∧
  name (this m') = name (this m) ∧
  localeChanged (this m') = localeChanged (this m).

(** An operation that assigns at most the key [key] and makes at most the
    calls [events]. *)
Definition assigns (key : string) (events : Event -> bool) : Footprint :=
  {| may_emit := events; may_store := String.eqb key;
     may_set_conditionRunner := false;
     may_set_isCustomWidgetRequested := false;
     may_set_customWidgetValue := false;
     may_set_callbacks := false; may_set_survey := false |}.

(** An operation that assigns nothing and makes at most the calls
    [events]. *)
Definition only_calls (events : Event -> bool) : Footprint :=
  {| may_emit := events; may_store := no_key;
     may_set_conditionRunner := false;
     may_set_isCustomWidgetRequested := false;
     may_set_customWidgetValue := false;
     may_set_callbacks := false; may_set_survey := false |}.

Definition footprint_of (op : Op) : Footprint :=
  match op with
  | SetVisible _ =>
      assigns "visible" (fun e => is_Called e || is_QuestionVisibilityChanged e)
  | SetVisibleIf _ => assigns "visibleIf" no_event
  | SetId _ => assigns "id" no_event
  | SetStartWithNewLine _ => assigns "startWithNewLine" is_Called
  | SetWidth _ => assigns "width" no_event
  | SetRenderWidth _ => assigns "renderWidth" is_Called
  | SetIndent _ => assigns "indent" is_Called
  | SetRightIndent _ => assigns "rightIndent" is_Called
  | SetVisibleIndex _ => assigns "visibleIndex" is_Called
  | RunCondition _ =>
      {| may_emit := fun e => is_NewConditionRunner e || is_RunnerRun e
                              || is_Called e || is_QuestionVisibilityChanged e;
         may_store := String.eqb "visible";
         may_set_conditionRunner := true;
         may_set_isCustomWidgetRequested := false;
         may_set_customWidgetValue := false;
         may_set_callbacks := false; may_set_survey := false |}
  | OnSurveyLoad => only_calls is_Called
  | OnLocaleChanged => only_calls is_LocaleHandlerCalled
  | ReadCustomWidget =>
      {| may_emit := is_resolver_call; may_store := no_key;
         may_set_conditionRunner := false;
         may_set_isCustomWidgetRequested := true;
         may_set_customWidgetValue := true;
         may_set_callbacks := false; may_set_survey := false |}
  | UpdateCustomWidget =>
      {| may_emit := is_resolver_call; may_store := no_key;
         may_set_conditionRunner := false;
         may_set_isCustomWidgetRequested := false;
         may_set_customWidgetValue := true;
         may_set_callbacks := false; may_set_survey := false |}
  | ReadCssClasses => only_calls is_UpdateQuestionCssClasses
  | AssignCallback _ _ =>
      {| may_emit := no_event; may_store := no_key;
         may_set_conditionRunner := false;
         may_set_isCustomWidgetRequested := false;
         may_set_customWidgetValue := false;
         may_set_callbacks := true; may_set_survey := false |}
  | AttachSurvey _ =>
      {| may_emit := no_event; may_store := no_key;
         may_set_conditionRunner := false;
         may_set_isCustomWidgetRequested := false;
         may_set_customWidgetValue := false;
         may_set_callbacks := false; may_set_survey := true |}
  | Focus _ | OnSurveyValueChanged _ | ClearUnusedValues
  | OnReadOnlyChanged | OnAnyValueChanged _ => only_calls no_event
  end.

(** The operations by which a client, not a method of the class, rewires
    the question. *)
Definition is_wiring (op : Op) : bool :=
  match op with AssignCallback _ _ | AttachSurvey _ => true | _ => false end.

(** The operations that may assign [visible]. *)
Definition assigns_visible (op : Op) : bool :=
  match op with SetVisible _ | RunCondition _ => true | _ => false end.

Definition is_AttachSurvey (op : Op) : bool :=
  match op with AttachSurvey _ => true | _ => false end.

Definition is_RunCondition (op : Op) : bool :=
  match op with RunCondition _ => true | _ => false end.

(** A survey in design mode. *)
Definition design_survey : Survey :=
  {| isDesignMode_of := true; getLocale_of := "en";
     updateQuestionCssClasses_of := fun _ classes => classes |}.

(** The calls that reach a subscriber or the survey. *)
Definition is_subscriber_call (e : Event) : bool :=
  is_Called e || is_LocaleHandlerCalled e
  || is_QuestionVisibilityChanged e || is_UpdateQuestionCssClasses e.

(** Nobody listens to the question: no survey, no callback, no handler of
    [localeChanged]. *)
Definition unobserved (q : QuestionBase) : Prop :=
  survey q = None ∧ (forall h, callbacks q h = None) ∧ localeChanged q = [].

(** The lazy construction in [runCondition] is still to come. *)
Definition unbuilt (q : QuestionBase) : nat :=
  match conditionRunner q with None => 1%nat | Some _ => 0%nat end.

(** The object that [updateCssClasses] makes of the object [classes], given
    the entry of the style sheet for the type of the question. *)
Definition overridden (entry : option Css) (classes : gmap string Css)
    : gmap string Css :=
  match entry with
  | Some (CssStr s) => <["root" := CssStr s]> classes
  | Some (CssObj m) => m ∪ classes
  | Some (CssNum _) | None => classes
  end.

(** * Properties *)

(** ** The monad on a given memory *)

Lemma bind_Ret {A B} (c : M A) (f : A -> M B) m a m' :
  c m = (Ret a, m') -> (c ≫= f) m = f a m'.
Proof. intros H. unfold mbind, M_bind. by rewrite H. Qed.

Lemma bind_Throw {A B} (c : M A) (f : A -> M B) m e m' :
  c m = (Throw e, m') -> (c ≫= f) m = (Throw e, m').
Proof. intros H. unfold mbind, M_bind. by rewrite H. Qed.

Lemma Mem_eta m : {| this := this m; trace := trace m |} = m.
Proof. by destruct m. Qed.

Lemma with_propertyHash_id q : with_propertyHash (propertyHash q) q = q.
Proof. by destruct q. Qed.

Lemma fireCallback_fired callback m :
  fireCallback callback m =
  (Ret tt, {| this := this m; trace := trace m ++ fired callback |}).
Proof.
  destruct callback as [cb|]; simpl; [done|].
  unfold mret, M_ret. by rewrite app_nil_r, Mem_eta.
Qed.

(** ** Reading back what a setter stored *)

Lemma getPropertyValue_stored q key v d :
  getPropertyValue (stored key v q) key d = Some v.
Proof. unfold getPropertyValue, stored; simpl. by rewrite lookup_insert_eq. Qed.

Lemma getPropertyValue_stored_ne q key key' v d :
  key ≠ key' ->
  getPropertyValue (stored key v q) key' d = getPropertyValue q key' d.
Proof.
  intros Hne. unfold getPropertyValue, stored; simpl.
  by rewrite lookup_insert_ne.
Qed.

Lemma visible_stored q val : visible (stored "visible" (VBool val) q) = val.
Proof. unfold visible. by rewrite getPropertyValue_stored. Qed.

Lemma visible_with_conditionRunner r q :
  visible (with_conditionRunner r q) = visible q.
Proof. done. Qed.

Lemma renderWidth_stored q val : renderWidth (stored "renderWidth" (VStr val) q) = val.
Proof. unfold renderWidth. by rewrite getPropertyValue_stored. Qed.

Lemma width_stored q val : width (stored "width" (VStr val) q) = val.
Proof. unfold width. by rewrite getPropertyValue_stored. Qed.

(** ** The setter of [visible] *)

Lemma set_visible_same m : set_visible (visible (this m)) m = (Ret tt, m).
Proof.
  unfold set_visible, read, mbind, M_bind. by rewrite Bool.eqb_reflx.
Qed.

Lemma set_visible_unchanged q t val :
  visible q = val ->
  set_visible val {| this := q; trace := t |} = (Ret tt, {| this := q; trace := t |}).
Proof. intros <-. apply (set_visible_same {| this := q; trace := t |}). Qed.

Lemma set_visible_changed q t val :
  val ≠ visible q ->
  set_visible val {| this := q; trace := t |} =
  (Ret tt,
   {| this := stored "visible" (VBool val) q;
      trace := t ++ fired (visibilityChangedCallback q)
                 ++ fired (rowVisibilityChangedCallback q)
                 ++ notified q val |}).
Proof.
  intros Hne. unfold set_visible, read, mbind, M_bind; simpl.
  destruct (Bool.eqb_spec val (visible q)) as [|_]; [done|].
  rewrite !fireCallback_fired; simpl.
  unfold notified, get_this; simpl.
  destruct (survey q); simpl.
  - fold (stored "visible" (VBool val) q). rewrite visible_stored.
    unfold emit; simpl. by rewrite <- !app_assoc.
  - unfold mret, M_ret. by rewrite app_nil_r, <- !app_assoc.
Qed.

(** C3. Assigning [visible] a value different from the current one calls
    the visibility-change callback, then the row-visibility-change
    callback, and only then, if a survey is attached, notifies the survey
    with the new value; without a survey only the two callbacks are fired. *)
Theorem C3_visible_setter_order q t val :
  val ≠ visible q ->
  let m' := (set_visible val {| this := q; trace := t |}).2 in
  visible (this m') = val ∧
  trace m' = t ++ fired (visibilityChangedCallback q)
               ++ fired (rowVisibilityChangedCallback q)
               ++ notified q val ∧
  (survey q = None ->
   trace m' = t ++ fired (visibilityChangedCallback q)
                ++ fired (rowVisibilityChangedCallback q)) ∧
  (forall cv cr s,
     visibilityChangedCallback q = Some cv ->
     rowVisibilityChangedCallback q = Some cr ->
     survey q = Some s ->
     trace m' = t ++ [Called cv; Called cr;
                      QuestionVisibilityChanged (name q) val]).
Proof.
  intros Hne. rewrite (set_visible_changed _ _ _ Hne); simpl.
  split; [apply visible_stored|]. split; [done|]. split.
  - intros Hs. unfold notified. by rewrite Hs, app_nil_r.
  - intros cv cr s Hv Hr Hs. unfold notified. by rewrite Hv, Hr, Hs.
Qed.

Lemma C3_visible_setter_order_witness :
  trace (set_visible false {| this := observed_question; trace := [] |}).2 =
  [Called 1%nat; Called 2%nat; QuestionVisibilityChanged "q1" false].
Proof.
  assert (Hne : false ≠ visible observed_question) by (vm_compute; discriminate).
  destruct (C3_visible_setter_order observed_question [] false Hne)
    as (_ & _ & _ & Hall).
  apply (Hall 1%nat 2%nat sample_survey); reflexivity.
Defined.

(** ** Setters called with the current value *)

Lemma set_renderWidth_same m : set_renderWidth (renderWidth (this m)) m = (Ret tt, m).
Proof. unfold set_renderWidth, read, mbind, M_bind. by rewrite String.eqb_refl. Qed.

Lemma set_indent_same m : set_indent (indent (this m)) m = (Ret tt, m).
Proof. unfold set_indent, read, mbind, M_bind. by rewrite Z.eqb_refl. Qed.

Lemma set_rightIndent_same m : set_rightIndent (rightIndent (this m)) m = (Ret tt, m).
Proof. unfold set_rightIndent, read, mbind, M_bind. by rewrite Z.eqb_refl. Qed.

Lemma set_startWithNewLine_same m :
  set_startWithNewLine (startWithNewLine (this m)) m = (Ret tt, m).
Proof. unfold set_startWithNewLine, read, mbind, M_bind. by rewrite Bool.eqb_reflx. Qed.

Lemma setVisibleIndex_same m : setVisibleIndex (visibleIndex (this m)) m = (Ret 1, m).
Proof. unfold setVisibleIndex, read, mbind, M_bind. by rewrite Z.eqb_refl. Qed.

(** C4. For each of [visible], [renderWidth], [indent], [rightIndent],
    [startWithNewLine] and [visibleIndex], setting the property to its
    current value returns at once: the question and the trace are as
    before, so no callback is called and the survey is not notified. *)
Theorem C4_set_to_current_value_is_noop (m : Mem) :
  set_visible (visible (this m)) m = (Ret tt, m) ∧
  set_renderWidth (renderWidth (this m)) m = (Ret tt, m) ∧
  set_indent (indent (this m)) m = (Ret tt, m) ∧
  set_rightIndent (rightIndent (this m)) m = (Ret tt, m) ∧
  set_startWithNewLine (startWithNewLine (this m)) m = (Ret tt, m) ∧
  setVisibleIndex (visibleIndex (this m)) m = (Ret 1, m).
Proof.
  repeat split.
  - apply set_visible_same.
  - apply set_renderWidth_same.
  - apply set_indent_same.
  - apply set_rightIndent_same.
  - apply set_startWithNewLine_same.
  - apply setVisibleIndex_same.
Qed.

(** ** [width] and [renderWidth] *)

Lemma set_renderWidth_changed q t val :
  val ≠ renderWidth q ->
  set_renderWidth val {| this := q; trace := t |} =
  (Ret tt,
   {| this := stored "renderWidth" (VStr val) q;
      trace := t ++ fired (renderWidthChangedCallback q) |}).
Proof.
  intros Hne. unfold set_renderWidth, read, mbind, M_bind; simpl.
  destruct (String.eqb_spec val (renderWidth q)) as [|_]; [done|].
  by rewrite fireCallback_fired.
Qed.

Lemma set_width_stores q t val :
  set_width val {| this := q; trace := t |} =
  (Ret tt, {| this := stored "width" (VStr val) q; trace := t |}).
Proof. done. Qed.

(** C5, as the specification states it, fails on a question that has a subscriber in
    every callback slot: its width is [""], setting it to ["100px"] is a
    change, and nothing at all is called. *)
Lemma C5_width_has_no_hook :
  "100px" ≠ width (this observed_mem) ∧
  (forall h, h ∈ [renderWidthChangedCallback_; rowVisibilityChangedCallback_;
                  startWithNewLineChangedCallback_; visibilityChangedCallback_;
                  visibleIndexChangedCallback_] ->
             is_Some (callbacks (this observed_mem) h)) ∧
  width (this (set_width "100px" observed_mem).2) = "100px" ∧
  trace (set_width "100px" observed_mem).2 = [].
Proof.
  simpl. split; [vm_compute; discriminate|]. split.
  - intros h Hh. repeat (apply elem_of_cons in Hh as [->|Hh]; [vm_compute; eauto|]).
    by apply elem_of_nil in Hh.
  - split; [apply width_stored|done].
Qed.

(** C5 (amended). Setting [renderWidth] to a value that differs from the
    current one stores it and fires the render-width-change callback once;
    setting it to the current value does nothing.  Setting [width] stores
    the value, equal or not, and fires no callback: [width] has no hook. *)
Theorem C5_renderWidth_gated_width_silent q t val :
  (val ≠ renderWidth q ->
   set_renderWidth val {| this := q; trace := t |} =
   (Ret tt, {| this := stored "renderWidth" (VStr val) q;
               trace := t ++ fired (renderWidthChangedCallback q) |})) ∧
  (val = renderWidth q ->
   set_renderWidth val {| this := q; trace := t |} =
   (Ret tt, {| this := q; trace := t |})) ∧
  renderWidth (stored "renderWidth" (VStr val) q) = val ∧
  set_width val {| this := q; trace := t |} =
  (Ret tt, {| this := stored "width" (VStr val) q; trace := t |}) ∧
  width (stored "width" (VStr val) q) = val.
Proof.
  split; [apply set_renderWidth_changed|]. split.
  - intros ->. apply (set_renderWidth_same {| this := q; trace := t |}).
  - split; [apply renderWidth_stored|]. split; [done|apply width_stored].
Qed.

Lemma C5_renderWidth_gated_width_silent_witness :
  trace (set_renderWidth "50%" {| this := observed_question; trace := [] |}).2 =
  [Called 3%nat] ∧
  set_renderWidth "" {| this := observed_question; trace := [] |} =
  (Ret tt, {| this := observed_question; trace := [] |}).
Proof.
  destruct (C5_renderWidth_gated_width_silent observed_question [] "50%")
    as (Hchanged & _).
  destruct (C5_renderWidth_gated_width_silent observed_question [] "")
    as (_ & Hsame & _).
  split.
  - rewrite Hchanged; [reflexivity|vm_compute; discriminate].
  - apply Hsame. reflexivity.
Defined.

(** ** Fixed answers of the base class *)

(** C6, as the specification states it, fails on its last item: the base class
    answers [true] to [isReadOnly]. *)
Lemma C6_isReadOnly_is_true : isReadOnly sample_question ≠ false.
Proof. discriminate. Qed.

(** C6 (amended). A freshly constructed base question, like any other,
    answers: no errors ([getAllErrors] empty, [hasErrors] false,
    [currentErrorCount] 0), no title, no description, no input, no comment;
    and [isReadOnly] is true, the base question having no input. *)
Theorem C6_base_answers name counter fire :
  let q := (new_QuestionBase name counter).1 in
  getAllErrors q = [] ∧
  hasErrors q fire = false ∧
  currentErrorCount q = 0 ∧
  hasTitle q = false ∧
  hasDescription q = false ∧
  hasInput q = false ∧
  hasComment q = false ∧
  isReadOnly q = true.
Proof. by repeat split. Qed.

(** ** [isVisible] *)

(** C10, as the specification states it, fails in its last part: a
    hidden question with no survey has, for [isVisible], the absent survey
    reference that [&&] hands through, and not its [visible], which is
    [false]. *)
Lemma C10_isVisible_without_survey :
  survey hidden_question = None ∧
  visible hidden_question = false ∧
  isVisible hidden_question = None ∧
  isVisible hidden_question ≠ Some (visible hidden_question).
Proof. by repeat split. Qed.

(** C10 (amended). [isVisible] is [true] exactly when [visible] is true, or
    a survey is attached and it is in design mode.  Without a survey,
    [isVisible] is [true] when [visible] is true and is otherwise the
    absent survey reference, which is falsy without being [false]: there
    [isVisible] is truthy exactly when [visible] is true. *)
Theorem C10_isVisible_truthy q :
  (isVisible q = Some true <->
   visible q = true ∨ ∃ s, survey q = Some s ∧ isDesignMode_of s = true) ∧
  (survey q = None ->
   isVisible q = (if visible q then Some true else None) ∧
   is_truthy (isVisible q) = visible q).
Proof.
  unfold isVisible, isDesignMode. split.
  - split.
    + destruct (visible q); [by left|].
      destruct (survey q) as [s|]; [|done].
      intros Hd. right. exists s. split; [done|]. congruence.
    + intros [Hv|(s & Hs & Hd)]; [by rewrite Hv|].
      rewrite Hs, Hd. by destruct (visible q).
  - intros ->. by destruct (visible q).
Qed.

Lemma C10_isVisible_truthy_witness :
  isVisible hidden_question = None ∧
  is_truthy (isVisible hidden_question) = visible hidden_question.
Proof.
  destruct (C10_isVisible_truthy hidden_question) as [_ Hnone].
  destruct Hnone as [Hundefined Htruthy]; [reflexivity|].
  split; [exact Hundefined|exact Htruthy].
Defined.

(** ** [runCondition] *)

Section Conditions.

Variable evaluate : string -> gmap string Value -> Outcome bool.

Lemma runCondition_empty values m :
  visibleIf (this m) = "" -> runCondition evaluate values m = (Ret tt, m).
Proof.
  intros He. unfold runCondition, read, mbind, M_bind. by rewrite He.
Qed.

(** What [runCondition] does up to the assignment of [visible]. *)
Lemma runCondition_evaluates values q t b :
  visibleIf q ≠ "" ->
  evaluate (visibleIf q) values = Ret b ->
  runCondition evaluate values {| this := q; trace := t |} =
  set_visible b
    {| this := with_conditionRunner (Some {| expression := visibleIf q |}) q;
       trace := t ++ constructed q (visibleIf q)
                  ++ [RunnerRun (visibleIf q) values] |}.
Proof.
  intros Hne Hev.
  unfold runCondition, ConditionRunner_run, read, mbind, M_bind; simpl.
  destruct (String.eqb_spec (visibleIf q) "") as [|_]; [done|].
  unfold constructed.
  destruct (conditionRunner q) as [r|] eqn:Hr; simpl; rewrite ?Hr; simpl;
    change (visibleIf (with_conditionRunner _ q)) with (visibleIf q);
    unfold lift_outcome; rewrite Hev; simpl.
  - done.
  - by rewrite <- app_assoc.
Qed.

(** C2. With an empty [visibleIf], [runCondition] returns at once: the
    question, its [visible] and its condition runner among the rest, is
    as before, and so is the trace: no callback is called, no condition
    runner is built and nothing is evaluated. *)
Theorem C2_runCondition_without_expression values m :
  visibleIf (this m) = "" ->
  runCondition evaluate values m = (Ret tt, m).
Proof. apply runCondition_empty. Qed.

(** C1. On a hidden question whose [visibleIf] is [{x} = 1], with an
    evaluator that finds the expression true on [{x: 1}],
    [runCondition({x: 1})] makes the question visible through the setter
    of [visible]: the visibility-change callback and the
    row-visibility-change callback are each fired once (and the survey,
    if any, is notified).  A second call with the same values leaves the
    question as it is and only evaluates the expression again: no
    callback is fired. *)
Theorem C1_runCondition_shows_once q t :
  let values : gmap string Value := {[ "x" := VNum 1 ]} in
  visibleIf q = "{x} = 1" ->
  visible q = false ->
  evaluate "{x} = 1" values = Ret true ->
  let r1 := runCondition evaluate values {| this := q; trace := t |} in
  let r2 := runCondition evaluate values r1.2 in
  r1.1 = Ret tt ∧
  visible (this r1.2) = true ∧
  trace r1.2 = t ++ constructed q "{x} = 1"
                 ++ [RunnerRun "{x} = 1" values]
                 ++ fired (visibilityChangedCallback q)
                 ++ fired (rowVisibilityChangedCallback q)
                 ++ notified q true ∧
  r2.1 = Ret tt ∧
  this r2.2 = this r1.2 ∧
  trace r2.2 = trace r1.2 ++ [RunnerRun "{x} = 1" values].
Proof.
  intros values Hvi Hv Hev r1 r2.
  assert (Hr1 : r1 = (Ret tt,
    {| this := stored "visible" (VBool true)
                 (with_conditionRunner (Some {| expression := "{x} = 1" |}) q);
       trace := t ++ constructed q "{x} = 1"
                  ++ [RunnerRun "{x} = 1" values]
                  ++ fired (visibilityChangedCallback q)
                  ++ fired (rowVisibilityChangedCallback q)
                  ++ notified q true |})).
  { unfold r1. rewrite (runCondition_evaluates values q t true);
      rewrite Hvi; [|done|done].
    rewrite set_visible_changed.
    - by rewrite <- !app_assoc.
    - change (visible (with_conditionRunner _ q)) with (visible q).
      by rewrite Hv. }
  assert (Hvi' : visibleIf (this r1.2) = "{x} = 1").
  { rewrite Hr1; simpl. unfold visibleIf.
    rewrite getPropertyValue_stored_ne by done. apply Hvi. }
  assert (Hr2 : r2 = (Ret tt,
    {| this := this r1.2;
       trace := trace r1.2 ++ [RunnerRun "{x} = 1" values] |})).
  { unfold r2. rewrite <- (Mem_eta r1.2) at 1.
    rewrite (runCondition_evaluates values _ _ true);
      rewrite Hvi'; [|done|done].
    rewrite Hr1; simpl.
    rewrite set_visible_unchanged
      by (rewrite visible_with_conditionRunner; apply visible_stored).
    unfold constructed; simpl. done. }
  rewrite Hr2, Hr1; simpl.
  repeat split; try done. apply visible_stored.
Qed.

End Conditions.

Lemma C2_runCondition_without_expression_witness :
  runCondition sample_evaluate ∅ observed_mem = (Ret tt, observed_mem).
Proof.
  apply (C2_runCondition_without_expression sample_evaluate ∅ observed_mem).
  reflexivity.
Defined.

Lemma C1_runCondition_shows_once_witness :
  trace (runCondition sample_evaluate {[ "x" := VNum 1 ]}
           {| this := conditional_question; trace := [] |}).2 =
  [NewConditionRunner "{x} = 1"; RunnerRun "{x} = 1" {[ "x" := VNum 1 ]};
   Called 1%nat; Called 2%nat; QuestionVisibilityChanged "q1" true].
Proof.
  destruct (C1_runCondition_shows_once sample_evaluate conditional_question [])
    as (_ & _ & Htrace & _); [reflexivity|reflexivity|reflexivity|].
  rewrite Htrace. reflexivity.
Defined.

(** ** Frame rules *)

Section Frame.

Variable R : Mem -> Mem -> Prop.
Hypothesis R_refl : forall m, R m m.
Hypothesis R_trans : forall m1 m2 m3, R m1 m2 -> R m2 m3 -> R m1 m3.

Lemma preserves_ret {A} (a : A) : preserves R (mret a).
Proof. intros m. apply R_refl. Qed.

Lemma preserves_throw {A} e : preserves R (@throw A e).
Proof. intros m. apply R_refl. Qed.

Lemma preserves_read {A} (f : QuestionBase -> A) : preserves R (read f).
Proof. intros m. apply R_refl. Qed.

Lemma preserves_get_this : preserves R get_this.
Proof. intros m. apply R_refl. Qed.

Lemma preserves_lift_outcome {A} (o : Outcome A) : preserves R (lift_outcome o).
Proof. intros m. apply R_refl. Qed.

Lemma preserves_bind {A B} (c : M A) (f : A -> M B) :
  preserves R c -> (forall a, preserves R (f a)) -> preserves R (c ≫= f).
Proof.
  intros Hc Hf m. specialize (Hc m). unfold mbind, M_bind.
  destruct (c m) as [[a|e] m']; simpl in *; [|done].
  eapply R_trans; [apply Hc|apply Hf].
Qed.

(** The events and the field updates that [R] does not see. *)
Hypothesis R_emit : forall e,
  is_resolver_call e = false -> preserves R (emit e).
Hypothesis R_stored : forall key v,
  key ≠ "id" -> preserves R (setPropertyValue key v).
Hypothesis R_conditionRunner : forall r,
  preserves R (update_this (with_conditionRunner r)).
Hypothesis R_callback : forall h cb,
  preserves R (update_this (with_callback h cb)).
Hypothesis R_survey : forall s,
  preserves R (update_this (with_survey s)).

Ltac frame :=
  repeat first
    [ apply preserves_ret
    | apply preserves_throw
    | apply preserves_read
    | apply preserves_get_this
    | apply preserves_lift_outcome
    | apply R_conditionRunner
    | apply R_callback
    | apply R_survey
    | apply R_emit; reflexivity
    | apply R_stored; discriminate
    | apply preserves_bind; [|intros]
    | match goal with
      | |- preserves _ (if ?b then _ else _) => destruct b
      | |- preserves _ (match ?x with _ => _ end) => destruct x
      end ].

Lemma preserves_fireCallback cb : preserves R (fireCallback cb).
Proof. unfold fireCallback. frame. Qed.

Lemma preserves_set_visible val : preserves R (set_visible val).
Proof. unfold set_visible, fireCallback. frame. Qed.

Lemma preserves_onLocaleChanged : preserves R onLocaleChanged.
Proof.
  unfold onLocaleChanged. apply preserves_bind; [frame|]. intros q.
  induction (localeChanged q) as [|cb l IH]; simpl; frame. apply IH.
Qed.

Lemma preserves_runCondition evaluate values :
  preserves R (runCondition evaluate values).
Proof.
  unfold runCondition, ConditionRunner_run.
  frame; apply preserves_fireCallback.
Qed.

Lemma preserves_cssClasses getCss : preserves R (cssClasses getCss).
Proof. unfold cssClasses. frame. Qed.

(** Every operation but the assignment of [id] and the two that reach
    the widget collection. *)
Lemma preserves_run_op evaluate getCustomWidget getCss op :
  is_SetId op = false ->
  is_ReadCustomWidget op = false ->
  is_UpdateCustomWidget op = false ->
  preserves R (run_op evaluate getCustomWidget getCss op).
Proof.
  intros Hid Hread Hupd.
  destruct op; simpl; try done;
    try apply preserves_set_visible;
    try apply preserves_onLocaleChanged;
    try apply preserves_runCondition;
    try (apply preserves_bind; [apply preserves_cssClasses|intros; frame]).
  all: unfold set_visibleIf, set_startWithNewLine, set_width, set_renderWidth,
         set_indent, set_rightIndent, setVisibleIndex, focus,
         onSurveyValueChanged, onSurveyLoad, clearUnusedValues,
         onReadOnlyChanged, onAnyValueChanged, fireCallback; frame.
Qed.

(** The same for a relation that the widget binding does not disturb
    either. *)
Hypothesis R_emit_resolver : forall question,
  preserves R (emit (GetCustomWidget question)).
Hypothesis R_requested :
  preserves R (update_this (with_isCustomWidgetRequested true)).
Hypothesis R_customWidgetValue : forall w,
  preserves R (update_this (with_customWidgetValue w)).

Lemma preserves_updateCustomWidget getCustomWidget :
  preserves R (updateCustomWidget getCustomWidget).
Proof.
  unfold updateCustomWidget. frame;
    [apply R_emit_resolver|apply R_customWidgetValue].
Qed.

Lemma preserves_customWidget getCustomWidget :
  preserves R (customWidget getCustomWidget).
Proof.
  unfold customWidget, updateCustomWidget.
  frame; first [apply R_emit_resolver|apply R_requested|apply R_customWidgetValue].
Qed.

Lemma preserves_run_op_but_SetId evaluate getCustomWidget getCss op :
  is_SetId op = false ->
  preserves R (run_op evaluate getCustomWidget getCss op).
Proof.
  intros Hid.
  destruct (is_ReadCustomWidget op) eqn:Hread.
  { destruct op; try done. simpl.
    apply preserves_bind; [apply preserves_customWidget|intros; frame]. }
  destruct (is_UpdateCustomWidget op) eqn:Hupd.
  { destruct op; try done. apply preserves_updateCustomWidget. }
  by apply preserves_run_op.
Qed.

End Frame.

(** *** The three frames *)

Lemma same_id_run_op evaluate getCustomWidget getCss op :
  is_SetId op = false ->
  preserves same_id (run_op evaluate getCustomWidget getCss op).
Proof.
  apply preserves_run_op_but_SetId; unfold preserves, same_id; try done.
  - congruence.
  - intros key v Hne m; simpl. unfold id. f_equal.
    apply (getPropertyValue_stored_ne (this m)). done.
Qed.

Lemma requested_stays_run_op evaluate getCustomWidget getCss op :
  preserves requested_stays (run_op evaluate getCustomWidget getCss op).
Proof.
  destruct (is_SetId op) eqn:Hid.
  { destruct op; try done. intros m Hreq. exact Hreq. }
  apply preserves_run_op_but_SetId; unfold preserves, requested_stays;
    try done; auto.
Qed.

Lemma resolver_calls_app t t' :
  resolver_calls (t ++ t') = (resolver_calls t + resolver_calls t')%nat.
Proof. induction t as [|e t IH]; simpl; [done|]. rewrite IH. lia. Qed.

Lemma same_widget_run_op evaluate getCustomWidget getCss op :
  is_ReadCustomWidget op = false ->
  is_UpdateCustomWidget op = false ->
  preserves same_widget (run_op evaluate getCustomWidget getCss op).
Proof.
  intros Hread Hupd.
  destruct (is_SetId op) eqn:Hid.
  { by destruct op. }
  apply preserves_run_op; unfold preserves, same_widget; try done.
  - intros m1 m2 m3 (-> & -> & ->) (-> & -> & ->). done.
  - intros e He m; simpl. rewrite resolver_calls_app; simpl.
    rewrite He. repeat split; lia.
Qed.

(** ** The custom widget *)

Section Widgets.

Variable evaluate : string -> gmap string Value -> Outcome bool.
Variable getCustomWidget : QuestionBase -> Outcome (option QuestionCustomWidget).
Variable getCss : gmap string Css.

#[local] Abbreviation run_op := (run_op evaluate getCustomWidget getCss).
#[local] Abbreviation run_ops := (run_ops evaluate getCustomWidget getCss).

Lemma updateCustomWidget_trace m :
  trace (updateCustomWidget getCustomWidget m).2 =
  trace m ++ [GetCustomWidget (name (this m))].
Proof.
  unfold updateCustomWidget, mbind, M_bind, get_this, lift_outcome; simpl.
  by destruct (getCustomWidget (this m)).
Qed.

Lemma updateCustomWidget_value m w :
  getCustomWidget (this m) = Ret w ->
  customWidgetValue (this (updateCustomWidget getCustomWidget m).2) = w.
Proof.
  intros Hw.
  unfold updateCustomWidget, mbind, M_bind, get_this, lift_outcome; simpl.
  by rewrite Hw.
Qed.

Lemma no_more_calls_customWidget :
  preserves no_more_calls (customWidget getCustomWidget).
Proof.
  intros m. unfold no_more_calls, pending.
  unfold customWidget, updateCustomWidget, mbind, M_bind, read, get_this,
    lift_outcome; simpl.
  destruct (isCustomWidgetRequested (this m)) eqn:Hreq; simpl;
    [rewrite Hreq; simpl; lia|].
  destruct (customWidgetValue (this m)) as [w|] eqn:Hw; simpl.
  - rewrite Hreq, Hw. simpl. lia.
  - destruct (getCustomWidget _) as [w'|e]; simpl;
      rewrite resolver_calls_app; simpl; lia.
Qed.

Lemma no_more_calls_run_op op :
  is_UpdateCustomWidget op = false -> preserves no_more_calls (run_op op).
Proof.
  intros Hupd. destruct (is_ReadCustomWidget op) eqn:Hread.
  - destruct op; try done. intros m; simpl.
    pose proof (no_more_calls_customWidget m) as H.
    unfold mbind, M_bind. by destruct (customWidget _ m) as [[?|?] ?].
  - intros m.
    destruct (same_widget_run_op evaluate getCustomWidget getCss op Hread Hupd m)
      as (Hreq & Hval & Hcalls).
    unfold no_more_calls, pending. rewrite Hreq, Hval, Hcalls. lia.
Qed.

Lemma no_more_calls_run_ops ops m :
  Forall (fun op => is_UpdateCustomWidget op = false) ops ->
  no_more_calls m (run_ops ops m).
Proof.
  intros Hops. revert m.
  induction Hops as [|op ops Hop _ IH]; intros m; simpl.
  - unfold no_more_calls. lia.
  - specialize (IH (run_op op m).2).
    pose proof (no_more_calls_run_op op Hop m) as H.
    unfold no_more_calls in *. lia.
Qed.

Lemma requested_stays_run_ops ops m :
  requested_stays m (run_ops ops m).
Proof.
  revert m. induction ops as [|op ops IH]; intros m; simpl; [by intros ?|].
  intros Hreq. apply IH.
  by apply (requested_stays_run_op evaluate getCustomWidget getCss op m).
Qed.

(** C8. Over any run of operations on a question that does not call
    [updateCustomWidget()], reads of [customWidget] among them however
    many, the widget collection is asked at most once, whatever it
    answers.  Each call of [updateCustomWidget()] asks it once more and,
    when it answers, caches the answer.  Once [isCustomWidgetRequested]
    is true, no operation makes it false. *)
Theorem C8_customWidget_resolved_at_most_once :
  (forall ops m,
     Forall (fun op => is_UpdateCustomWidget op = false) ops ->
     (resolver_calls (trace (run_ops ops m)) <= resolver_calls (trace m) + 1)%nat) ∧
  (forall n m,
     (resolver_calls (trace (run_ops (replicate n ReadCustomWidget) m))
      <= resolver_calls (trace m) + 1)%nat) ∧
  (forall m,
     trace (updateCustomWidget getCustomWidget m).2 =
     trace m ++ [GetCustomWidget (name (this m))] ∧
     forall w, getCustomWidget (this m) = Ret w ->
               customWidgetValue (this (updateCustomWidget getCustomWidget m).2) = w) ∧
  (forall ops m,
     isCustomWidgetRequested (this m) = true ->
     isCustomWidgetRequested (this (run_ops ops m)) = true).
Proof.
  assert (Hmost : forall ops m,
     Forall (fun op => is_UpdateCustomWidget op = false) ops ->
     (resolver_calls (trace (run_ops ops m)) <= resolver_calls (trace m) + 1)%nat).
  { intros ops m Hops. pose proof (no_more_calls_run_ops ops m Hops) as H.
    unfold no_more_calls, pending in H.
    repeat match type of H with context [if ?b then _ else _] => destruct b end;
      lia. }
  split; [exact Hmost|]. split; [|split].
  - intros n m. apply Hmost. by apply Forall_replicate.
  - intros m. split; [apply updateCustomWidget_trace|apply updateCustomWidget_value].
  - intros ops m. apply requested_stays_run_ops.
Qed.

End Widgets.

Lemma C8_customWidget_resolved_at_most_once_witness :
  (resolver_calls
     (trace (run_ops sample_evaluate sample_getCustomWidget sample_css
               [ReadCustomWidget; SetVisible false; ReadCustomWidget] observed_mem))
   <= 1)%nat ∧
  customWidgetValue
    (this (updateCustomWidget sample_getCustomWidget observed_mem).2) = None ∧
  isCustomWidgetRequested
    (this (run_ops sample_evaluate sample_getCustomWidget sample_css
             [RunCondition ∅; ReadCssClasses]
             (run_ops sample_evaluate sample_getCustomWidget sample_css
                [ReadCustomWidget] observed_mem))) = true.
Proof.
  destruct (C8_customWidget_resolved_at_most_once
              sample_evaluate sample_getCustomWidget sample_css)
    as (Hmost & _ & Hupdate & Hflag).
  split; [|split].
  - apply (Hmost [ReadCustomWidget; SetVisible false; ReadCustomWidget] observed_mem).
    repeat constructor.
  - apply (Hupdate observed_mem). reflexivity.
  - apply Hflag. reflexivity.
Defined.

(** ** Identity *)

Lemma new_QuestionBase_id name c :
  id (new_QuestionBase name c).1 = "sq_" +:+ pretty c ∧
  (new_QuestionBase name c).2 = increment c.
Proof.
  unfold new_QuestionBase, getQuestionId; simpl. split; [|done].
  unfold id, getPropertyValue; simpl. by rewrite lookup_insert_eq.
Qed.

Lemma sq_id_nonempty (c : Z) : "sq_" +:+ pretty c ≠ "".
Proof. discriminate. Qed.

Lemma sq_id_inj (c c' : Z) : "sq_" +:+ pretty c = "sq_" +:+ pretty c' -> c = c'.
Proof. intros H. apply (inj (String.append "sq_")) in H. by apply (inj pretty) in H. Qed.

Lemma increment_counter_at n : increment (counter_at n) = counter_at (S n).
Proof.
  unfold increment, counter_at.
  destruct (Z.ltb_spec (Z.min (questionCounter_init + Z.of_nat n) max_exact) max_exact);
    lia.
Qed.

Lemma counter_at_exact i :
  questionCounter_init + Z.of_nat i <= max_exact ->
  counter_at i = questionCounter_init + Z.of_nat i.
Proof. unfold counter_at. lia. Qed.

Lemma counter_at_stopped i :
  max_exact <= questionCounter_init + Z.of_nat i -> counter_at i = max_exact.
Proof. unfold counter_at. lia. Qed.

Section Identity.

Variable evaluate : string -> gmap string Value -> Outcome bool.
Variable getCustomWidget : QuestionBase -> Outcome (option QuestionCustomWidget).
Variable getCss : gmap string Css.

#[local] Abbreviation act := (act evaluate getCustomWidget getCss).
#[local] Abbreviation acts := (acts evaluate getCustomWidget getCss).

Lemma id_as_constructed_start i : id_as_constructed i start.
Proof. split; [done|]. intros q Hq. by destruct i. Qed.

Lemma id_as_constructed_act i a p :
  assigns_id_of i a = false -> id_as_constructed i p -> id_as_constructed i (act a p).
Proof.
  intros Hkeep [Hcount Hid]. unfold id_as_constructed, counter_counts in *.
  destruct a as [name|j op]; simpl.
  - destruct (new_QuestionBase name (questionCounter p)) as [q c] eqn:Hnew.
    pose proof (new_QuestionBase_id name (questionCounter p)) as [Hq Hc].
    rewrite Hnew in Hq, Hc; simpl in Hq, Hc. split; simpl.
    + rewrite length_app; simpl. rewrite Nat.add_1_r, <- increment_counter_at.
      by rewrite <- Hcount.
    + intros q' Hi. apply lookup_app_Some in Hi as [Hi|[Hlen Hi]].
      * by apply Hid.
      * apply list_lookup_singleton_Some in Hi as [Hi Heq]. subst q'.
        injection Hnew as Hnew _. rewrite Hnew, Hq, Hcount. do 3 f_equal. lia.
  - destruct (questions p !! j) as [q|] eqn:Hq; [|done]. split; simpl.
    + by rewrite length_insert.
    + intros q' Hi.
      apply list_lookup_insert_Some in Hi as [(<- & <- & Hlt)|[Hne Hi]].
      * rewrite <- (Hid q Hq).
        apply (same_id_run_op evaluate getCustomWidget getCss op).
        simpl in Hkeep. by rewrite Nat.eqb_refl in Hkeep.
      * by apply Hid.
Qed.

Lemma id_as_constructed_acts i l p :
  leaves_id_of i l = true -> id_as_constructed i p -> id_as_constructed i (acts l p).
Proof.
  revert p. induction l as [|a l IH]; intros p Hl Hp; simpl; [done|].
  unfold leaves_id_of in Hl. simpl in Hl. apply andb_true_iff in Hl as [Ha Hl].
  apply IH; [done|]. apply id_as_constructed_act; [|done].
  by apply negb_true_iff.
Qed.

(** A question stays at its place in the process. *)
Lemma act_keeps_questions a p i q :
  questions p !! i = Some q -> is_Some (questions (act a p) !! i).
Proof.
  intros Hq. destruct a as [name|j op]; simpl.
  - rewrite lookup_app_l by (by eapply lookup_lt_Some). eauto.
  - destruct (questions p !! j) as [q'|] eqn:Hj; simpl; [|eauto].
    apply lookup_lt_is_Some. rewrite length_insert. by eapply lookup_lt_Some.
Qed.

Lemma acts_keeps_questions l p i q :
  questions p !! i = Some q -> is_Some (questions (acts l p) !! i).
Proof.
  revert p q. induction l as [|a l IH]; intros p q Hq; simpl; [eauto|].
  destruct (act_keeps_questions a p i q Hq) as [q' Hq']. by eapply IH.
Qed.

Lemma acts_app l l' p : acts (l ++ l') p = acts l' (acts l p).
Proof. apply foldl_app. Qed.

Lemma leaves_id_of_app i l l' :
  leaves_id_of i (l ++ l') = leaves_id_of i l && leaves_id_of i l'.
Proof. unfold leaves_id_of. apply forallb_app. Qed.

(** C9 (amended). Whatever the clients of a process do, to this question
    or to the others, short of assigning the [id] of this question: the
    question has the id the constructor gave it, ["sq_"] followed by the
    value the counter then had; this id is not empty and is still the same
    after any further operations of that kind.  As long as the counter has
    not passed 2^53 (the question is among the first 2^53 - 99 of the
    process), its id differs from the id of every other such question
    whose [id] was not assigned either.  Past 2^53 the counter stays where
    it is and all the questions built from then on get the same id. *)
Theorem C9_ids_as_constructed l l' i q :
  leaves_id_of i l = true ->
  leaves_id_of i l' = true ->
  questions (acts l start) !! i = Some q ->
  id q = "sq_" +:+ pretty (counter_at i) ∧
  id q ≠ "" ∧
  (∃ q', questions (acts l' (acts l start)) !! i = Some q' ∧ id q' = id q) ∧
  (questionCounter_init + Z.of_nat i <= max_exact ->
   id q = "sq_" +:+ pretty (questionCounter_init + Z.of_nat i) ∧
   forall j q',
     j ≠ i ->
     leaves_id_of j l = true ->
     questionCounter_init + Z.of_nat j <= max_exact ->
     questions (acts l start) !! j = Some q' ->
     id q' ≠ id q) ∧
  (max_exact <= questionCounter_init + Z.of_nat i ->
   forall j q',
     leaves_id_of j l = true ->
     max_exact <= questionCounter_init + Z.of_nat j ->
     questions (acts l start) !! j = Some q' ->
     id q' = id q).
Proof.
  intros Hl Hl' Hq.
  assert (Hids : forall j q', leaves_id_of j l = true ->
                   questions (acts l start) !! j = Some q' ->
                   id q' = "sq_" +:+ pretty (counter_at j)).
  { intros j q' Hj Hq'.
    destruct (id_as_constructed_acts j l start Hj (id_as_constructed_start j))
      as [_ Hid]. by apply Hid. }
  pose proof (Hids i q Hl Hq) as Hid.
  split; [done|]. split; [rewrite Hid; apply sq_id_nonempty|]. split; [|split].
  - destruct (acts_keeps_questions l' _ i q Hq) as [q' Hq']. exists q'.
    split; [done|]. rewrite Hid. rewrite <- acts_app in Hq'.
    assert (Hll : leaves_id_of i (l ++ l') = true).
    { by rewrite leaves_id_of_app, Hl, Hl'. }
    destruct (id_as_constructed_acts i (l ++ l') start Hll (id_as_constructed_start i))
      as [_ Hid']. by apply Hid'.
  - intros Hi. split; [by rewrite Hid, counter_at_exact|].
    intros j q' Hne Hj Hbound Hq'. rewrite Hid, (Hids j q' Hj Hq').
    rewrite !counter_at_exact by done.
    intros Heq. apply sq_id_inj in Heq. lia.
  - intros Hi j q' Hj Hbound Hq'. rewrite Hid, (Hids j q' Hj Hq').
    by rewrite !counter_at_stopped.
Qed.

End Identity.

(** C9, as the specification states it, fails: [id] has a public setter, and a client
    that uses it gives a question the id of another one, or an empty id. *)
Lemma C9_id_can_be_reassigned :
  id <$> questions (acts sample_evaluate sample_getCustomWidget sample_css
                      [New "a"; New "b"; On 1%nat (SetId "sq_100")] start)
  = ["sq_100"; "sq_100"] ∧
  id <$> questions (acts sample_evaluate sample_getCustomWidget sample_css
                      [New "a"; On 0%nat (SetId "")] start)
  = [""].
Proof. split; reflexivity. Qed.

Lemma C9_ids_as_constructed_witness :
  id (new_QuestionBase "b" 101).1 = "sq_101" ∧
  id (new_QuestionBase "b" 101).1 ≠ "" ∧
  id (new_QuestionBase "a" 100).1 ≠ id (new_QuestionBase "b" 101).1.
Proof.
  destruct (C9_ids_as_constructed sample_evaluate sample_getCustomWidget sample_css
              [New "a"; On 0%nat (SetId "mine"); New "b"; On 0%nat (SetId "sq_101")]
              [On 1%nat (SetWidth "10px"); On 0%nat (SetId "other")] 1%nat
              (new_QuestionBase "b" 101).1)
    as (_ & Hne & _ & Hexact & _); [reflexivity|reflexivity|reflexivity|].
  destruct Hexact as [Hid _]; [vm_compute; discriminate|].
  destruct (C9_ids_as_constructed sample_evaluate sample_getCustomWidget sample_css
              [New "a"; New "b"] [] 1%nat (new_QuestionBase "b" 101).1)
    as (_ & _ & _ & Hexact & _); [reflexivity|reflexivity|reflexivity|].
  destruct Hexact as [_ Hdistinct]; [vm_compute; discriminate|].
  split; [exact Hid|]. split; [exact Hne|].
  apply (Hdistinct 0%nat (new_QuestionBase "a" 100).1);
    [discriminate|reflexivity|vm_compute; discriminate|reflexivity].
Defined.

(** ** Style classes *)

Lemma copyKeys_object dest source :
  copyKeys (CssObj dest) source = Ret (CssObj (source ∪ dest)).
Proof.
  unfold copyKeys.
  apply (map_fold_weak_ind (fun r m => r = Ret (CssObj (m ∪ dest)))).
  - by rewrite (left_id_L ∅ (∪)).
  - intros key v m r Hkey ->; simpl. by rewrite insert_union_l.
Qed.

Lemma copyKeys_primitive dest source :
  (forall m, dest ≠ CssObj m) ->
  copyKeys dest source =
  if bool_decide (source = ∅) then Ret dest else Throw TypeError.
Proof.
  intros Hprim. unfold copyKeys.
  set (P := fun (r : Outcome Css) (m : gmap string Css) =>
              r = if bool_decide (m = ∅) then Ret dest else Throw TypeError).
  change (P (map_fold (fun key v acc => d ← acc; setProp d key v) (Ret dest) source)
            source).
  apply (map_fold_weak_ind P); unfold P.
  - by rewrite bool_decide_eq_true_2.
  - intros key v m r Hkey ->.
    rewrite (bool_decide_eq_false_2 (<[key:=v]> m = ∅)) by apply insert_non_empty.
    case_bool_decide; simpl; [|done].
    destruct dest; try done. by destruct (Hprim fields).
Qed.

Lemma copyCssClasses_object dest source :
  copyCssClasses (CssObj dest) source = Ret (CssObj (layered source dest)).
Proof.
  unfold copyCssClasses, layered. destruct (css_falsy source); [done|].
  destruct source as [[s|n|m]|]; try done. apply copyKeys_object.
Qed.

Lemma copyCssClasses_primitive dest source :
  (forall m, dest ≠ CssObj m) ->
  copyCssClasses dest source =
  if writes source then Throw TypeError else Ret dest.
Proof.
  intros Hprim. unfold copyCssClasses, writes.
  destruct (css_falsy source); [done|]; simpl.
  destruct source as [[s|n|m]|]; try done.
  - destruct dest; try done. by destruct (Hprim fields).
  - rewrite copyKeys_primitive by done. by case_bool_decide.
Qed.

Lemma error_slot_lookup surveyCss :
  layered (surveyCss !! "question") {[ "error" := CssObj ∅ ]} !! "error" =
  Some (error_slot surveyCss).
Proof.
  unfold layered, error_slot.
  destruct (surveyCss !! "question") as [[s|n|m]|]; simpl.
  - destruct (String.eqb s ""); [done|]. by rewrite lookup_insert_ne.
  - by destruct (Z.eqb n 0).
  - rewrite lookup_union, lookup_singleton_eq. by destruct (m !! "error").
  - done.
Qed.

(** The two generic copies, together. *)
Lemma generic_copies surveyCss :
  (classes ← copyCssClasses (CssObj {[ "error" := CssObj ∅ ]}) (surveyCss !! "question");
   match css_get classes "error" with
   | Some error =>
       error ← copyCssClasses error (surveyCss !! "error");
       setProp classes "error" error
   | None => Throw TypeError
   end) =
  if error_slot_ok surveyCss then Ret (CssObj (generic_classes surveyCss))
  else Throw TypeError.
Proof.
  rewrite copyCssClasses_object; simpl.
  unfold mbind at 1; simpl. rewrite error_slot_lookup.
  unfold error_slot_ok, generic_classes.
  destruct (error_slot surveyCss) as [s|n|e].
  - rewrite copyCssClasses_primitive by done. by destruct (writes _).
  - rewrite copyCssClasses_primitive by done. by destruct (writes _).
  - by rewrite copyCssClasses_object.
Qed.



(** Without that object to write into, the read of [cssClasses] throws. *)
Lemma cssClasses_throws getCss m :
  error_slot_ok getCss = false ->
  cssClasses getCss m = (Throw TypeError, m).
Proof.
  intros Hok. unfold cssClasses.
  unfold mbind at 1, M_bind, get_this; simpl.
  rewrite copyCssClasses_object.
  unfold mbind at 1, M_bind, lift_outcome at 1; simpl.
  pose proof (generic_copies getCss) as Hgen.
  rewrite copyCssClasses_object in Hgen. unfold mbind at 1 in Hgen; simpl in Hgen.
  unfold mbind at 1, M_bind, lift_outcome at 1.
  by rewrite Hgen, Hok.
Qed.





(** * Further properties *)

(** ** Footprints *)

Lemma within_refl F m : within F m m.
Proof.
  unfold within. split; [|by repeat split].
  exists []. by rewrite app_nil_r.
Qed.

Lemma within_trans F m1 m2 m3 : within F m1 m2 -> within F m2 m3 -> within F m1 m3.
Proof.
  intros ((evs & Ht & Hevs) & Hk & Hr & Hq & Hw & Hc & Hs & Hn & Hl)
         ((evs' & Ht' & Hevs') & Hk' & Hr' & Hq' & Hw' & Hc' & Hs' & Hn' & Hl').
  split.
  { exists (evs ++ evs'). rewrite Ht', Ht, app_assoc. split; [done|].
    rewrite forallb_app. by rewrite Hevs, Hevs'. }
  split; [intros key Hkey; by rewrite Hk', Hk|].
  split; [intros H; by rewrite Hr', Hr|].
  split; [intros H; by rewrite Hq', Hq|].
  split; [intros H; by rewrite Hw', Hw|].
  split; [intros H; by rewrite Hc', Hc|].
  split; [intros H; by rewrite Hs', Hs|].
  split; congruence.
Qed.

Lemma within_emit F e : may_emit F e = true -> preserves (within F) (emit e).
Proof.
  intros He m. split; [|by repeat split].
  exists [e]; simpl. by rewrite He.
Qed.

Lemma within_store F key v :
  may_store F key = true -> preserves (within F) (setPropertyValue key v).
Proof.
  intros Hkey m. split; [exists []; by rewrite app_nil_r|].
  split; [|by repeat split].
  intros key' Hkey'; simpl. apply lookup_insert_ne. congruence.
Qed.

Lemma within_conditionRunner F r :
  may_set_conditionRunner F = true ->
  preserves (within F) (update_this (with_conditionRunner r)).
Proof.
  intros HF m. split; [exists []; by rewrite app_nil_r|].
  repeat split; try done. simpl. congruence.
Qed.

Lemma within_requested F b :
  may_set_isCustomWidgetRequested F = true ->
  preserves (within F) (update_this (with_isCustomWidgetRequested b)).
Proof.
  intros HF m. split; [exists []; by rewrite app_nil_r|].
  repeat split; try done. simpl. congruence.
Qed.

Lemma within_customWidgetValue F w :
  may_set_customWidgetValue F = true ->
  preserves (within F) (update_this (with_customWidgetValue w)).
Proof.
  intros HF m. split; [exists []; by rewrite app_nil_r|].
  repeat split; try done. simpl. congruence.
Qed.

Lemma within_callback F h cb :
  may_set_callbacks F = true ->
  preserves (within F) (update_this (with_callback h cb)).
Proof.
  intros HF m. split; [exists []; by rewrite app_nil_r|].
  repeat split; try done. simpl. congruence.
Qed.

Lemma within_survey F s :
  may_set_survey F = true ->
  preserves (within F) (update_this (with_survey s)).
Proof.
  intros HF m. split; [exists []; by rewrite app_nil_r|].
  repeat split; try done. simpl. congruence.
Qed.

Ltac footprint :=
  repeat first
    [ apply preserves_ret; apply within_refl
    | apply preserves_throw; apply within_refl
    | apply preserves_read; apply within_refl
    | apply preserves_get_this; apply within_refl
    | apply preserves_lift_outcome; apply within_refl
    | apply within_emit; reflexivity
    | apply within_store; reflexivity
    | apply within_conditionRunner; reflexivity
    | apply within_requested; reflexivity
    | apply within_customWidgetValue; reflexivity
    | apply within_callback; reflexivity
    | apply within_survey; reflexivity
    | apply preserves_bind; [apply within_trans| |intros]
    | progress unfold fireCallback
    | match goal with
      | |- preserves _ (if ?b then _ else _) => destruct b
      | |- preserves _ (match ?x with _ => _ end) => destruct x
      end ].

Lemma within_onLocaleChanged :
  preserves (within (footprint_of OnLocaleChanged)) onLocaleChanged.
Proof.
  unfold onLocaleChanged. apply preserves_bind; [apply within_trans|footprint|].
  intros q. induction (localeChanged q) as [|cb l IH]; simpl.
  - footprint.
  - apply preserves_bind; [apply within_trans|footprint|]. intros _. apply IH.
Qed.

Lemma run_op_within evaluate getCustomWidget getCss op m :
  within (footprint_of op) m (run_op evaluate getCustomWidget getCss op m).2.
Proof.
  revert m. change (preserves (within (footprint_of op))
                      (run_op evaluate getCustomWidget getCss op)).
  destruct op; try apply within_onLocaleChanged;
    unfold run_op, footprint_of, set_visible, set_visibleIf, set_id, set_startWithNewLine, set_width,
      set_renderWidth, set_indent, set_rightIndent, setVisibleIndex, focus,
      onSurveyValueChanged, onSurveyLoad, clearUnusedValues, onReadOnlyChanged,
      onAnyValueChanged, runCondition, ConditionRunner_run, customWidget,
      updateCustomWidget, cssClasses, fireCallback;
    footprint.
Qed.

(** X1. Every operation stays within its footprint.  A setter assigns no
    other key of the property hash than its own and calls nothing but
    callbacks (the setter of [visible] may notify the survey as well; the
    setters of [visibleIf], [id] and [width] call nothing); [runCondition]
    may build and run the condition runner and otherwise does what the
    setter of [visible] does; [customWidget] and [updateCustomWidget] only
    reach the widget collection and the widget cache; [cssClasses] only
    calls the survey's handler; the other notifications assign nothing.  No
    method changes the name, the survey, the callback slots or the handlers
    of [localeChanged]. *)
Theorem X1_operations_stay_within_footprint evaluate getCustomWidget getCss op m :
  within (footprint_of op) m (run_op evaluate getCustomWidget getCss op m).2.
Proof. apply run_op_within. Qed.

Section Footprints.

Variable evaluate : string -> gmap string Value -> Outcome bool.
Variable getCustomWidget : QuestionBase -> Outcome (option QuestionCustomWidget).
Variable getCss : gmap string Css.

#[local] Abbreviation run_op := (run_op evaluate getCustomWidget getCss).
#[local] Abbreviation run_ops := (run_ops evaluate getCustomWidget getCss).

Lemma run_ops_key_frame key ops m :
  forallb (fun op => negb (may_store (footprint_of op) key)) ops = true ->
  propertyHash (this (run_ops ops m)) !! key = propertyHash (this m) !! key.
Proof.
  revert m. induction ops as [|op ops IH]; intros m Hops; simpl; [done|].
  simpl in Hops. apply andb_true_iff in Hops as [Hop Hops].
  rewrite IH by done.
  destruct (run_op_within evaluate getCustomWidget getCss op m) as (_ & Hkey & _).
  apply Hkey. by apply negb_true_iff.
Qed.

(** X2. Over a run of operations none of which may assign the key [key],
    the property hash holds under [key] what it held before.  So [visible]
    changes through its setter and through [runCondition] only: over a run
    without these two it keeps its value. *)
Theorem X2_properties_change_by_their_own_operations ops m :
  (forall key,
     forallb (fun op => negb (may_store (footprint_of op) key)) ops = true ->
     propertyHash (this (run_ops ops m)) !! key = propertyHash (this m) !! key) ∧
  (forallb (fun op => negb (assigns_visible op)) ops = true ->
   visible (this (run_ops ops m)) = visible (this m)).
Proof.
  split; [intros key; apply run_ops_key_frame|].
  intros Hops. unfold visible, getPropertyValue.
  rewrite (run_ops_key_frame "visible"); [done|].
  apply forallb_forall. intros op Hop.
  apply (proj1 (forallb_forall _ _) Hops) in Hop. by destruct op.
Qed.

Lemma run_ops_wiring ops m :
  forallb (fun op => negb (is_wiring op)) ops = true ->
  name (this (run_ops ops m)) = name (this m) ∧
  survey (this (run_ops ops m)) = survey (this m) ∧
  callbacks (this (run_ops ops m)) = callbacks (this m) ∧
  localeChanged (this (run_ops ops m)) = localeChanged (this m).
Proof.
  revert m. induction ops as [|op ops IH]; intros m Hops; simpl; [done|].
  simpl in Hops. apply andb_true_iff in Hops as [Hop Hops].
  destruct (IH (run_op op m).2 Hops) as (-> & -> & -> & ->).
  destruct (run_op_within evaluate getCustomWidget getCss op m)
    as (_ & _ & _ & _ & _ & Hc & Hs & Hn & Hl).
  split; [done|]. split; [|split; [|done]].
  - apply Hs. by destruct op.
  - apply Hc. by destruct op.
Qed.

(** X3. No method of the class rewires the question: over any run of
    operations in which the client neither assigns a callback slot nor
    attaches or detaches a survey, the name, the survey, every callback
    slot and the handlers of [localeChanged] are as before. *)
Theorem X3_methods_keep_the_wiring ops m :
  forallb (fun op => negb (is_wiring op)) ops = true ->
  name (this (run_ops ops m)) = name (this m) ∧
  survey (this (run_ops ops m)) = survey (this m) ∧
  (forall h, callbacks (this (run_ops ops m)) h = callbacks (this m) h) ∧
  localeChanged (this (run_ops ops m)) = localeChanged (this m).
Proof.
  intros Hops. destruct (run_ops_wiring ops m Hops) as (Hn & Hs & Hc & Hl).
  repeat split; try done. intros h. by rewrite Hc.
Qed.

Lemma run_ops_survey ops m :
  forallb (fun op => negb (is_AttachSurvey op)) ops = true ->
  survey (this (run_ops ops m)) = survey (this m).
Proof.
  revert m. induction ops as [|op ops IH]; intros m Hops; simpl; [done|].
  simpl in Hops. apply andb_true_iff in Hops as [Hop Hops].
  rewrite IH by done.
  destruct (run_op_within evaluate getCustomWidget getCss op m)
    as (_ & _ & _ & _ & _ & _ & Hs & _).
  apply Hs. by destruct op.
Qed.

(** X4. A question whose survey is in design mode stays visible
    ([isVisible]) whatever is done to it, as long as its survey is not
    replaced: hiding it through the setter or through [runCondition] does
    not hide it from the designer. *)
Theorem X4_design_mode_keeps_questions_visible ops m s :
  survey (this m) = Some s ->
  isDesignMode_of s = true ->
  forallb (fun op => negb (is_AttachSurvey op)) ops = true ->
  isVisible (this (run_ops ops m)) = Some true.
Proof.
  intros Hs Hd Hops. unfold isVisible, isDesignMode.
  rewrite (run_ops_survey ops m Hops), Hs, Hd.
  by destruct (visible (this (run_ops ops m))).
Qed.

End Footprints.

Lemma X2_properties_change_by_their_own_operations_witness :
  visible (this (run_ops sample_evaluate sample_getCustomWidget sample_css
                   [SetWidth "10px"; SetIndent 2; ReadCssClasses; OnSurveyLoad]
                   observed_mem)) = true.
Proof.
  destruct (X2_properties_change_by_their_own_operations
              sample_evaluate sample_getCustomWidget sample_css
              [SetWidth "10px"; SetIndent 2; ReadCssClasses; OnSurveyLoad]
              observed_mem) as [_ Hvisible].
  rewrite Hvisible; reflexivity.
Defined.

Lemma X3_methods_keep_the_wiring_witness :
  survey (this (run_ops sample_evaluate sample_getCustomWidget sample_css
                  [SetVisible false; RunCondition ∅; ReadCustomWidget]
                  observed_mem)) = Some sample_survey.
Proof.
  destruct (X3_methods_keep_the_wiring
              sample_evaluate sample_getCustomWidget sample_css
              [SetVisible false; RunCondition ∅; ReadCustomWidget] observed_mem)
    as (_ & Hs & _); [reflexivity|].
  rewrite Hs. reflexivity.
Defined.

Lemma X4_design_mode_keeps_questions_visible_witness :
  isVisible (this (run_ops sample_evaluate sample_getCustomWidget sample_css
                     [SetVisible false]
                     {| this := with_survey (Some design_survey) sample_question;
                        trace := [] |})) = Some true.
Proof.
  apply (X4_design_mode_keeps_questions_visible
           sample_evaluate sample_getCustomWidget sample_css
           [SetVisible false]
           {| this := with_survey (Some design_survey) sample_question; trace := [] |}
           design_survey); reflexivity.
Defined.

(** ** The change-gated setters, in full *)

Lemma set_visible_spec q t val :
  set_visible val {| this := q; trace := t |} =
  (Ret tt,
   if Bool.eqb val (visible q) then {| this := q; trace := t |}
   else {| this := stored "visible" (VBool val) q;
           trace := t ++ fired (visibilityChangedCallback q)
                      ++ fired (rowVisibilityChangedCallback q)
                      ++ notified q val |}).
Proof.
  destruct (Bool.eqb_spec val (visible q)) as [->|Hne].
  - apply (set_visible_same {| this := q; trace := t |}).
  - by apply set_visible_changed.
Qed.

Lemma set_renderWidth_spec q t val :
  set_renderWidth val {| this := q; trace := t |} =
  (Ret tt,
   if String.eqb val (renderWidth q) then {| this := q; trace := t |}
   else {| this := stored "renderWidth" (VStr val) q;
           trace := t ++ fired (renderWidthChangedCallback q) |}).
Proof.
  destruct (String.eqb_spec val (renderWidth q)) as [->|Hne].
  - apply (set_renderWidth_same {| this := q; trace := t |}).
  - by apply set_renderWidth_changed.
Qed.

Lemma set_indent_spec q t val :
  set_indent val {| this := q; trace := t |} =
  (Ret tt,
   if Z.eqb val (indent q) then {| this := q; trace := t |}
   else {| this := stored "indent" (VNum val) q;
           trace := t ++ fired (renderWidthChangedCallback q) |}).
Proof.
  unfold set_indent, read, mbind, M_bind; simpl.
  destruct (Z.eqb val (indent q)); [done|]. by rewrite fireCallback_fired.
Qed.

Lemma set_rightIndent_spec q t val :
  set_rightIndent val {| this := q; trace := t |} =
  (Ret tt,
   if Z.eqb val (rightIndent q) then {| this := q; trace := t |}
   else {| this := stored "rightIndent" (VNum val) q;
           trace := t ++ fired (renderWidthChangedCallback q) |}).
Proof.
  unfold set_rightIndent, read, mbind, M_bind; simpl.
  destruct (Z.eqb val (rightIndent q)); [done|]. by rewrite fireCallback_fired.
Qed.

Lemma set_startWithNewLine_spec q t val :
  set_startWithNewLine val {| this := q; trace := t |} =
  (Ret tt,
   if Bool.eqb (startWithNewLine q) val then {| this := q; trace := t |}
   else {| this := stored "startWithNewLine" (VBool val) q;
           trace := t ++ fired (startWithNewLineChangedCallback q) |}).
Proof.
  unfold set_startWithNewLine, read, mbind, M_bind; simpl.
  destruct (Bool.eqb (startWithNewLine q) val); [done|].
  change (callbacks q startWithNewLineChangedCallback_)
    with (startWithNewLineChangedCallback q).
  destruct (startWithNewLineChangedCallback q) eqn:Hcb; simpl.
  all: unfold startWithNewLineChangedCallback in Hcb; rewrite ?Hcb; simpl.
  - done.
  - unfold mret, M_ret. by rewrite app_nil_r.
Qed.

Lemma setVisibleIndex_spec q t val :
  setVisibleIndex val {| this := q; trace := t |} =
  (Ret 1,
   if Z.eqb (visibleIndex q) val then {| this := q; trace := t |}
   else {| this := stored "visibleIndex" (VNum val) q;
           trace := t ++ fired (visibleIndexChangedCallback q) |}).
Proof.
  unfold setVisibleIndex, read, mbind, M_bind; simpl.
  destruct (Z.eqb (visibleIndex q) val); [done|]. by rewrite fireCallback_fired.
Qed.

Lemma indent_stored q val : indent (stored "indent" (VNum val) q) = val.
Proof. unfold indent. by rewrite getPropertyValue_stored. Qed.

Lemma rightIndent_stored q val : rightIndent (stored "rightIndent" (VNum val) q) = val.
Proof. unfold rightIndent. by rewrite getPropertyValue_stored. Qed.

Lemma startWithNewLine_stored q val :
  startWithNewLine (stored "startWithNewLine" (VBool val) q) = val.
Proof. unfold startWithNewLine. by rewrite getPropertyValue_stored. Qed.

Lemma visibleIndex_stored q val :
  visibleIndex (stored "visibleIndex" (VNum val) q) = val.
Proof. unfold visibleIndex. by rewrite getPropertyValue_stored. Qed.

Lemma visibleIf_stored q val : visibleIf (stored "visibleIf" (VStr val) q) = val.
Proof. unfold visibleIf. by rewrite getPropertyValue_stored. Qed.

Lemma id_stored q val : id (stored "id" (VStr val) q) = val.
Proof. unfold id. by rewrite getPropertyValue_stored. Qed.

(** X5. [indent] and [rightIndent] share the render-width-change callback
    and are gated each on its own value: after [indent = a] and then
    [rightIndent = b] the two properties read [a] and [b], and the callback
    has been fired once for each of the two assignments that changed its
    property, the second firing not being held back by the first. *)
Theorem X5_indents_share_the_render_width_hook q t a b :
  let m1 := (set_indent a {| this := q; trace := t |}).2 in
  let m2 := (set_rightIndent b m1).2 in
  indent (this m2) = a ∧
  rightIndent (this m2) = b ∧
  trace m2 = t ++ (if Z.eqb a (indent q) then [] else fired (renderWidthChangedCallback q))
               ++ (if Z.eqb b (rightIndent q) then [] else fired (renderWidthChangedCallback q)).
Proof.
  simpl. rewrite set_indent_spec.
  destruct (Z.eqb_spec a (indent q)) as [->|Ha]; simpl; rewrite set_rightIndent_spec.
  - destruct (Z.eqb_spec b (rightIndent q)) as [->|Hb]; simpl.
    + by rewrite !app_nil_r.
    + split; [|split; [apply rightIndent_stored|done]].
      unfold indent. by rewrite getPropertyValue_stored_ne.
  - assert (Hr : rightIndent (stored "indent" (VNum a) q) = rightIndent q).
    { unfold rightIndent. by rewrite getPropertyValue_stored_ne. }
    rewrite Hr.
    destruct (Z.eqb_spec b (rightIndent q)) as [->|Hb]; simpl.
    + split; [apply indent_stored|]. split; [done|]. by rewrite app_nil_r.
    + split; [|split; [apply rightIndent_stored|by rewrite <- app_assoc]].
      unfold indent. rewrite getPropertyValue_stored_ne by done.
      apply indent_stored.
Qed.

(** X6. [setVisibleIndex(val)] always returns 1.  It leaves [visibleIndex]
    at [val]; it fires the visible-index-change callback exactly when
    [val] differs from the index the question had; called again with the
    same [val] it does nothing. *)
Theorem X6_setVisibleIndex q t val :
  let r := setVisibleIndex val {| this := q; trace := t |} in
  r.1 = Ret 1 ∧
  visibleIndex (this r.2) = val ∧
  trace r.2 = t ++ (if Z.eqb (visibleIndex q) val then []
                    else fired (visibleIndexChangedCallback q)) ∧
  setVisibleIndex val r.2 = (Ret 1, r.2).
Proof.
  simpl. rewrite setVisibleIndex_spec.
  destruct (Z.eqb_spec (visibleIndex q) val) as [<-|Hne]; simpl.
  - rewrite app_nil_r. repeat split.
    apply (setVisibleIndex_same {| this := q; trace := t |}).
  - repeat split; [apply visibleIndex_stored|].
    rewrite setVisibleIndex_spec, visibleIndex_stored. by rewrite Z.eqb_refl.
Qed.

(** X7. The setter of [startWithNewLine] leaves the property at the value
    assigned and fires its own callback, and nothing else, exactly when
    that value differs from the one the question had. *)
Theorem X7_startWithNewLine_setter q t val :
  let r := set_startWithNewLine val {| this := q; trace := t |} in
  r.1 = Ret tt ∧
  startWithNewLine (this r.2) = val ∧
  trace r.2 = t ++ (if Bool.eqb (startWithNewLine q) val then []
                    else fired (startWithNewLineChangedCallback q)).
Proof.
  simpl. rewrite set_startWithNewLine_spec.
  destruct (Bool.eqb_spec (startWithNewLine q) val) as [<-|Hne]; simpl.
  - by rewrite app_nil_r.
  - repeat split. apply startWithNewLine_stored.
Qed.

(** X9. Assigning the same value twice in a row is assigning it once: the
    second assignment through a gated setter changes nothing and fires
    nothing, whatever the first one did. *)
Theorem X9_repeated_assignment_is_silent m :
  (forall val, set_visible val (set_visible val m).2 = (Ret tt, (set_visible val m).2)) ∧
  (forall val, set_startWithNewLine val (set_startWithNewLine val m).2
               = (Ret tt, (set_startWithNewLine val m).2)) ∧
  (forall val, set_renderWidth val (set_renderWidth val m).2
               = (Ret tt, (set_renderWidth val m).2)) ∧
  (forall val, set_indent val (set_indent val m).2 = (Ret tt, (set_indent val m).2)) ∧
  (forall val, set_rightIndent val (set_rightIndent val m).2
               = (Ret tt, (set_rightIndent val m).2)) ∧
  (forall val, setVisibleIndex val (setVisibleIndex val m).2
               = (Ret 1, (setVisibleIndex val m).2)).
Proof.
  destruct m as [q t]. repeat split; intros val.
  - rewrite set_visible_spec.
    destruct (Bool.eqb_spec val (visible q)) as [->|Hne]; simpl.
    + apply (set_visible_same {| this := q; trace := t |}).
    + apply set_visible_unchanged, visible_stored.
  - rewrite set_startWithNewLine_spec.
    destruct (Bool.eqb_spec (startWithNewLine q) val) as [<-|Hne]; simpl.
    + apply (set_startWithNewLine_same {| this := q; trace := t |}).
    + rewrite set_startWithNewLine_spec, startWithNewLine_stored.
      by rewrite Bool.eqb_reflx.
  - rewrite set_renderWidth_spec.
    destruct (String.eqb_spec val (renderWidth q)) as [->|Hne]; simpl.
    + apply (set_renderWidth_same {| this := q; trace := t |}).
    + rewrite set_renderWidth_spec, renderWidth_stored.
      by rewrite String.eqb_refl.
  - rewrite set_indent_spec.
    destruct (Z.eqb_spec val (indent q)) as [->|Hne]; simpl.
    + apply (set_indent_same {| this := q; trace := t |}).
    + rewrite set_indent_spec, indent_stored. by rewrite Z.eqb_refl.
  - rewrite set_rightIndent_spec.
    destruct (Z.eqb_spec val (rightIndent q)) as [->|Hne]; simpl.
    + apply (set_rightIndent_same {| this := q; trace := t |}).
    + rewrite set_rightIndent_spec, rightIndent_stored. by rewrite Z.eqb_refl.
  - rewrite setVisibleIndex_spec.
    destruct (Z.eqb_spec (visibleIndex q) val) as [<-|Hne]; simpl.
    + apply (setVisibleIndex_same {| this := q; trace := t |}).
    + rewrite setVisibleIndex_spec, visibleIndex_stored. by rewrite Z.eqb_refl.
Qed.

(** ** [runCondition], in full *)

Section ConditionsInFull.

Variable evaluate : string -> gmap string Value -> Outcome bool.

Lemma runCondition_throws values q t e :
  visibleIf q ≠ "" ->
  evaluate (visibleIf q) values = Throw e ->
  runCondition evaluate values {| this := q; trace := t |} =
  (Throw e,
   {| this := with_conditionRunner (Some {| expression := visibleIf q |}) q;
      trace := t ++ constructed q (visibleIf q)
                 ++ [RunnerRun (visibleIf q) values] |}).
Proof.
  intros Hne Hev.
  unfold runCondition, ConditionRunner_run, read, mbind, M_bind; simpl.
  destruct (String.eqb_spec (visibleIf q) "") as [|_]; [done|].
  unfold constructed.
  destruct (conditionRunner q) as [r|] eqn:Hr; simpl; rewrite ?Hr; simpl;
    change (visibleIf (with_conditionRunner _ q)) with (visibleIf q);
    unfold lift_outcome; rewrite Hev; simpl.
  - done.
  - by rewrite <- app_assoc.
Qed.

Lemma runCondition_result values q t b :
  visibleIf q ≠ "" ->
  evaluate (visibleIf q) values = Ret b ->
  runCondition evaluate values {| this := q; trace := t |} =
  (Ret tt,
   let q1 := with_conditionRunner (Some {| expression := visibleIf q |}) q in
   let t1 := t ++ constructed q (visibleIf q) ++ [RunnerRun (visibleIf q) values] in
   if Bool.eqb b (visible q) then {| this := q1; trace := t1 |}
   else {| this := stored "visible" (VBool b) q1;
           trace := t1 ++ fired (visibilityChangedCallback q)
                       ++ fired (rowVisibilityChangedCallback q)
                       ++ notified q b |}).
Proof.
  intros Hne Hev.
  rewrite (runCondition_evaluates evaluate values q t b Hne Hev).
  by rewrite set_visible_spec, visible_with_conditionRunner.
Qed.

(** X10. With a non-empty [visibleIf], when the evaluator answers [b],
    [runCondition] leaves [visible] at [b].  It builds the condition runner
    only if the question had none, evaluates the current text of
    [visibleIf], and fires the two visibility callbacks (and notifies the
    survey, if any) exactly when [b] differs from the [visible] the
    question had: a question that already is as the expression says hears
    nothing. *)
Theorem X10_runCondition_applies_the_result values q t b :
  visibleIf q ≠ "" ->
  evaluate (visibleIf q) values = Ret b ->
  let r := runCondition evaluate values {| this := q; trace := t |} in
  r.1 = Ret tt ∧
  visible (this r.2) = b ∧
  conditionRunner (this r.2) = Some {| expression := visibleIf q |} ∧
  trace r.2 = t ++ constructed q (visibleIf q)
                ++ [RunnerRun (visibleIf q) values]
                ++ (if Bool.eqb b (visible q) then []
                    else fired (visibilityChangedCallback q)
                           ++ fired (rowVisibilityChangedCallback q)
                           ++ notified q b).
Proof.
  intros Hne Hev. cbv zeta.
  rewrite (runCondition_result values q t b Hne Hev). cbv zeta.
  destruct (Bool.eqb_spec b (visible q)) as [->|Hb]; cbn [fst snd this trace].
  - split; [done|]. split; [apply visible_with_conditionRunner|]. by split.
  - split; [done|]. split; [apply visible_stored|]. split; [done|].
    by rewrite <- !app_assoc.
Qed.

(** X11. When the evaluator throws, [runCondition] throws the same
    exception.  The property hash is as before, [visible] in particular: no
    fallback to visible or hidden is applied; no callback is fired and the
    survey is not notified.  The condition runner built for the occasion is
    kept. *)
Theorem X11_runCondition_propagates_errors values q t e :
  visibleIf q ≠ "" ->
  evaluate (visibleIf q) values = Throw e ->
  let r := runCondition evaluate values {| this := q; trace := t |} in
  r.1 = Throw e ∧
  propertyHash (this r.2) = propertyHash q ∧
  visible (this r.2) = visible q ∧
  conditionRunner (this r.2) = Some {| expression := visibleIf q |} ∧
  trace r.2 = t ++ constructed q (visibleIf q) ++ [RunnerRun (visibleIf q) values].
Proof.
  intros Hne Hev; simpl.
  by rewrite (runCondition_throws values q t e Hne Hev).
Qed.

(** X12. A change of [visibleIf] between two evaluations is picked up by
    the runner the question already has: after [visibleIf = expr] on a
    question with a condition runner, whatever its expression,
    [runCondition] builds no new runner, evaluates [expr], leaves the
    runner with the expression [expr] and [visible] at the result. *)
Theorem X12_runCondition_follows_visibleIf values q t old expr b :
  conditionRunner q = Some old ->
  expr ≠ "" ->
  evaluate expr values = Ret b ->
  let m1 := (set_visibleIf expr {| this := q; trace := t |}).2 in
  let r := runCondition evaluate values m1 in
  r.1 = Ret tt ∧
  conditionRunner (this r.2) = Some {| expression := expr |} ∧
  visible (this r.2) = b ∧
  ∃ rest, trace r.2 = t ++ [RunnerRun expr values] ++ rest ∧
          forallb (fun e => negb (is_NewConditionRunner e) && negb (is_RunnerRun e))
                  rest = true.
Proof.
  intros Hold Hne Hev. cbv zeta.
  change (set_visibleIf expr {| this := q; trace := t |}).2
    with {| this := stored "visibleIf" (VStr expr) q; trace := t |}.
  set (q1 := stored "visibleIf" (VStr expr) q).
  assert (Hvi : visibleIf q1 = expr) by apply visibleIf_stored.
  assert (Hne1 : visibleIf q1 ≠ "") by (by rewrite Hvi).
  assert (Hev1 : evaluate (visibleIf q1) values = Ret b) by (by rewrite Hvi).
  rewrite (runCondition_result values q1 t b Hne1 Hev1). cbv zeta.
  rewrite Hvi. unfold constructed.
  change (conditionRunner q1) with (conditionRunner q). rewrite Hold.
  destruct (Bool.eqb_spec b (visible q1)) as [->|Hb]; cbn [fst snd this trace].
  - split; [done|]. split; [done|]. split; [apply visible_with_conditionRunner|].
    exists []. by rewrite app_nil_r.
  - split; [done|]. split; [done|]. split; [apply visible_stored|].
    exists (fired (visibilityChangedCallback q1)
              ++ fired (rowVisibilityChangedCallback q1) ++ notified q1 b).
    split; [by rewrite <- !app_assoc|].
    unfold notified.
    by destruct (visibilityChangedCallback q1),
                (rowVisibilityChangedCallback q1), (survey q1).
Qed.

End ConditionsInFull.

Lemma X10_runCondition_applies_the_result_witness :
  visible (this (runCondition sample_evaluate ∅
                   {| this := stored "visibleIf" (VStr "{x} = 1") observed_question;
                      trace := [] |}).2) = false.
Proof.
  apply (X10_runCondition_applies_the_result sample_evaluate ∅
           (stored "visibleIf" (VStr "{x} = 1") observed_question) [] false);
    [vm_compute; discriminate|reflexivity].
Defined.

Lemma X11_runCondition_propagates_errors_witness :
  (runCondition sample_evaluate ∅
     {| this := stored "visibleIf" (VStr "{y} > 2") observed_question;
        trace := [] |}).1 = Throw EvaluatorError.
Proof.
  apply (X11_runCondition_propagates_errors sample_evaluate ∅
           (stored "visibleIf" (VStr "{y} > 2") observed_question) []
           EvaluatorError);
    [vm_compute; discriminate|reflexivity].
Defined.

Lemma X12_runCondition_follows_visibleIf_witness :
  conditionRunner
    (this (runCondition sample_evaluate {[ "x" := VNum 1 ]}
             (set_visibleIf "{x} = 1"
                {| this := with_conditionRunner (Some {| expression := "{y} > 2" |})
                             observed_question;
                   trace := [] |}).2).2)
  = Some {| expression := "{x} = 1" |}.
Proof.
  apply (X12_runCondition_follows_visibleIf sample_evaluate {[ "x" := VNum 1 ]}
           (with_conditionRunner (Some {| expression := "{y} > 2" |}) observed_question)
           [] {| expression := "{y} > 2" |} "{x} = 1" true);
    [reflexivity|discriminate|reflexivity].
Defined.

(** ** The condition runner is built once *)

Lemma count_events_app p t t' :
  count_events p (t ++ t') = (count_events p t + count_events p t')%nat.
Proof. unfold count_events. by rewrite List.filter_app, length_app. Qed.

Lemma count_events_none p evs :
  forallb (fun e => negb (p e)) evs = true -> count_events p evs = 0%nat.
Proof.
  unfold count_events. induction evs as [|e evs IH]; simpl; [done|].
  intros H. apply andb_true_iff in H as [He Hevs].
  apply negb_true_iff in He. rewrite He. by apply IH.
Qed.

Lemma forallb_weaken (p p' : Event -> bool) evs :
  (forall e, p e = true -> p' e = true) ->
  forallb p evs = true -> forallb p' evs = true.
Proof.
  intros Hpp' H. apply forallb_forall. intros e He.
  apply Hpp'. by apply (proj1 (forallb_forall _ _) H).
Qed.

Section RunnerOnce.

Variable evaluate : string -> gmap string Value -> Outcome bool.
Variable getCustomWidget : QuestionBase -> Outcome (option QuestionCustomWidget).
Variable getCss : gmap string Css.

#[local] Abbreviation run_op := (run_op evaluate getCustomWidget getCss).
#[local] Abbreviation run_ops := (run_ops evaluate getCustomWidget getCss).
#[local] Abbreviation built t := (count_events is_NewConditionRunner t).

Lemma built_constructed q expr : built (constructed q expr) = unbuilt q.
Proof. unfold constructed, unbuilt. by destruct (conditionRunner q). Qed.

Lemma built_visibility q b :
  built (fired (visibilityChangedCallback q)
           ++ fired (rowVisibilityChangedCallback q) ++ notified q b) = 0%nat.
Proof.
  unfold notified.
  by destruct (visibilityChangedCallback q), (rowVisibilityChangedCallback q),
              (survey q).
Qed.

Lemma runCondition_builds_once values m :
  let m' := (runCondition evaluate values m).2 in
  (built (trace m') + unbuilt (this m') = built (trace m) + unbuilt (this m))%nat.
Proof.
  destruct m as [q t]. cbv zeta.
  destruct (String.eqb_spec (visibleIf q) "") as [He|Hne].
  { by rewrite runCondition_empty. }
  destruct (evaluate (visibleIf q) values) as [b|e] eqn:Hev.
  - rewrite (runCondition_result evaluate values q t b Hne Hev). cbv zeta.
    destruct (Bool.eqb b (visible q)); cbn [fst snd this trace].
    + rewrite !count_events_app, built_constructed.
      change (unbuilt (with_conditionRunner _ q)) with 0%nat.
      change (built [RunnerRun (visibleIf q) values]) with 0%nat. lia.
    + rewrite !count_events_app, built_constructed, <- !count_events_app.
      rewrite built_visibility.
      change (unbuilt (stored _ _ (with_conditionRunner _ q))) with 0%nat.
      change (built [RunnerRun (visibleIf q) values]) with 0%nat. lia.
  - rewrite (runCondition_throws evaluate values q t e Hne Hev).
    cbn [fst snd this trace].
    rewrite !count_events_app, built_constructed.
    change (unbuilt (with_conditionRunner _ q)) with 0%nat.
    change (built [RunnerRun (visibleIf q) values]) with 0%nat. lia.
Qed.

Lemma run_op_builds_once op m :
  (built (trace (run_op op m).2) + unbuilt (this (run_op op m).2)
   = built (trace m) + unbuilt (this m))%nat.
Proof.
  destruct (is_RunCondition op) eqn:Hop.
  { destruct op; try done. apply runCondition_builds_once. }
  destruct (run_op_within evaluate getCustomWidget getCss op m)
    as ((evs & -> & Hevs) & _ & Hr & _).
  rewrite count_events_app, (count_events_none _ evs).
  - unfold unbuilt. rewrite Hr; [lia|]. by destruct op.
  - revert Hevs. apply forallb_weaken. intros e He.
    destruct op; try done; by destruct e.
Qed.

Lemma run_ops_builds_once ops m :
  (built (trace (run_ops ops m)) + unbuilt (this (run_ops ops m))
   = built (trace m) + unbuilt (this m))%nat.
Proof.
  revert m. induction ops as [|op ops IH]; intros m; simpl; [done|].
  rewrite IH. apply run_op_builds_once.
Qed.

Lemma run_ops_trace_grows ops m : ∃ evs, trace (run_ops ops m) = trace m ++ evs.
Proof.
  revert m. induction ops as [|op ops IH]; intros m; simpl.
  - exists []. by rewrite app_nil_r.
  - destruct (IH (run_op op m).2) as [evs' ->].
    destruct (run_op_within evaluate getCustomWidget getCss op m)
      as ((evs & -> & _) & _).
    exists (evs ++ evs'). by rewrite app_assoc.
Qed.

(** X13. Over any run of operations a condition runner is built at most
    once, and only for a question that has none; a question that has its
    runner keeps one, whatever is done to it, [runCondition] with a changed
    or emptied [visibleIf] included. *)
Theorem X13_condition_runner_is_built_once ops m :
  (count_events is_NewConditionRunner (trace (run_ops ops m))
   <= count_events is_NewConditionRunner (trace m) + 1)%nat ∧
  (is_Some (conditionRunner (this m)) ->
   is_Some (conditionRunner (this (run_ops ops m))) ∧
   count_events is_NewConditionRunner (trace (run_ops ops m))
   = count_events is_NewConditionRunner (trace m)).
Proof.
  pose proof (run_ops_builds_once ops m) as H. unfold unbuilt in H. split.
  - destruct (conditionRunner (this (run_ops ops m))), (conditionRunner (this m)); lia.
  - intros [r Hr]. rewrite Hr in H.
    destruct (run_ops_trace_grows ops m) as [evs Hevs].
    rewrite Hevs, count_events_app in H |- *.
    destruct (conditionRunner (this (run_ops ops m))); [|lia].
    split; [eauto|lia].
Qed.

End RunnerOnce.

Lemma X13_condition_runner_is_built_once_witness :
  count_events is_NewConditionRunner
    (trace (run_ops sample_evaluate sample_getCustomWidget sample_css
              [RunCondition ∅; SetVisibleIf ""; RunCondition ∅]
              (runCondition sample_evaluate {[ "x" := VNum 1 ]}
                 {| this := conditional_question; trace := [] |}).2)) = 1%nat.
Proof.
  destruct (X13_condition_runner_is_built_once
              sample_evaluate sample_getCustomWidget sample_css
              [RunCondition ∅; SetVisibleIf ""; RunCondition ∅]
              (runCondition sample_evaluate {[ "x" := VNum 1 ]}
                 {| this := conditional_question; trace := [] |}).2)
    as [_ Hkept].
  destruct Hkept as [_ Hcount]; [vm_compute; eauto|].
  rewrite Hcount. reflexivity.
Defined.

(** ** The custom widget, in full *)

Section WidgetsInFull.

Variable getCustomWidget : QuestionBase -> Outcome (option QuestionCustomWidget).

Lemma customWidget_cached q t :
  isCustomWidgetRequested q = true ∨ is_Some (customWidgetValue q) ->
  customWidget getCustomWidget {| this := q; trace := t |} =
  (Ret (customWidgetValue q), {| this := q; trace := t |}).
Proof.
  intros H. unfold customWidget, read, mbind, M_bind; simpl.
  destruct (isCustomWidgetRequested q) eqn:Hreq; simpl; [done|].
  destruct H as [H|[w Hw]]; [done|]. rewrite Hw; simpl. by rewrite Hw.
Qed.

Lemma customWidget_first q t w :
  isCustomWidgetRequested q = false ->
  customWidgetValue q = None ->
  getCustomWidget (with_isCustomWidgetRequested true q) = Ret w ->
  customWidget getCustomWidget {| this := q; trace := t |} =
  (Ret w,
   {| this := with_customWidgetValue w (with_isCustomWidgetRequested true q);
      trace := t ++ [GetCustomWidget (name q)] |}).
Proof.
  intros Hreq Hval Hw.
  unfold customWidget, updateCustomWidget, read, get_this, lift_outcome,
    mbind, M_bind; simpl.
  rewrite Hreq, Hval; simpl. by rewrite Hw.
Qed.

Lemma customWidget_first_throws q t e :
  isCustomWidgetRequested q = false ->
  customWidgetValue q = None ->
  getCustomWidget (with_isCustomWidgetRequested true q) = Throw e ->
  customWidget getCustomWidget {| this := q; trace := t |} =
  (Throw e,
   {| this := with_isCustomWidgetRequested true q;
      trace := t ++ [GetCustomWidget (name q)] |}).
Proof.
  intros Hreq Hval Hw.
  unfold customWidget, updateCustomWidget, read, get_this, lift_outcome,
    mbind, M_bind; simpl.
  rewrite Hreq, Hval; simpl. by rewrite Hw.
Qed.

Lemma updateCustomWidget_answered q t w :
  getCustomWidget q = Ret w ->
  updateCustomWidget getCustomWidget {| this := q; trace := t |} =
  (Ret tt, {| this := with_customWidgetValue w q;
              trace := t ++ [GetCustomWidget (name q)] |}).
Proof.
  intros Hw. unfold updateCustomWidget, get_this, lift_outcome, mbind, M_bind; simpl.
  by rewrite Hw.
Qed.

(** X14. The first read of [customWidget] on a question that has neither
    asked for its widget nor been given one asks the widget collection
    once, for the question with [isCustomWidgetRequested] already set, and
    returns the answer, be it a widget or none.  The next read returns the
    same answer and does nothing else. *)
Theorem X14_customWidget_asks_on_first_read q t w :
  isCustomWidgetRequested q = false ->
  customWidgetValue q = None ->
  getCustomWidget (with_isCustomWidgetRequested true q) = Ret w ->
  let r1 := customWidget getCustomWidget {| this := q; trace := t |} in
  r1.1 = Ret w ∧
  trace r1.2 = t ++ [GetCustomWidget (name q)] ∧
  isCustomWidgetRequested (this r1.2) = true ∧
  customWidgetValue (this r1.2) = w ∧
  customWidget getCustomWidget r1.2 = (Ret w, r1.2).
Proof.
  intros Hreq Hval Hw. cbv zeta.
  rewrite (customWidget_first q t w Hreq Hval Hw). cbn [fst snd this trace].
  split; [done|]. split; [done|]. split; [done|]. split; [done|].
  rewrite customWidget_cached; [done|by left].
Qed.

(** X15. When the widget collection throws on the first read, the read
    throws the same exception, and the question has asked all the same:
    the next read returns no widget and does not ask again. *)
Theorem X15_customWidget_does_not_retry_after_an_error q t e :
  isCustomWidgetRequested q = false ->
  customWidgetValue q = None ->
  getCustomWidget (with_isCustomWidgetRequested true q) = Throw e ->
  let r1 := customWidget getCustomWidget {| this := q; trace := t |} in
  r1.1 = Throw e ∧
  trace r1.2 = t ++ [GetCustomWidget (name q)] ∧
  isCustomWidgetRequested (this r1.2) = true ∧
  customWidget getCustomWidget r1.2 = (Ret None, r1.2).
Proof.
  intros Hreq Hval Hw. cbv zeta.
  rewrite (customWidget_first_throws q t e Hreq Hval Hw). cbn [fst snd this trace].
  split; [done|]. split; [done|]. split; [done|].
  rewrite customWidget_cached; [|by left]. simpl. by rewrite Hval.
Qed.

(** X16. [updateCustomWidget()] is not a request.  When it caches a widget,
    a read that follows returns that widget without asking, and
    [isCustomWidgetRequested] is as it was.  When it finds none on a
    question that never asked, the read that follows asks the widget
    collection again. *)
Theorem X16_updateCustomWidget_then_read q t :
  let m1 := (updateCustomWidget getCustomWidget {| this := q; trace := t |}).2 in
  (forall w, getCustomWidget q = Ret (Some w) ->
     customWidget getCustomWidget m1 = (Ret (Some w), m1) ∧
     isCustomWidgetRequested (this m1) = isCustomWidgetRequested q ∧
     trace m1 = t ++ [GetCustomWidget (name q)]) ∧
  (getCustomWidget q = Ret None ->
   isCustomWidgetRequested q = false ->
   trace (customWidget getCustomWidget m1).2 =
   t ++ [GetCustomWidget (name q); GetCustomWidget (name q)]).
Proof.
  cbv zeta. split.
  - intros w Hw. rewrite (updateCustomWidget_answered q t (Some w) Hw).
    cbn [fst snd this trace]. split; [|done].
    rewrite customWidget_cached; [done|]. right. simpl. eauto.
  - intros Hw Hreq. rewrite (updateCustomWidget_answered q t None Hw).
    cbn [fst snd this trace].
    unfold customWidget, updateCustomWidget, read, get_this, lift_outcome,
      mbind, M_bind; simpl.
    rewrite Hreq; simpl.
    destruct (getCustomWidget (with_isCustomWidgetRequested true _)); simpl;
      symmetry; apply (app_assoc t [_] [_]).
Qed.

End WidgetsInFull.

Lemma X14_customWidget_asks_on_first_read_witness :
  (customWidget sample_getCustomWidget observed_mem).1 = Ret None.
Proof.
  apply (X14_customWidget_asks_on_first_read sample_getCustomWidget
           observed_question [] None); reflexivity.
Defined.

Lemma X15_customWidget_does_not_retry_after_an_error_witness :
  (customWidget (fun _ => Throw ResolverError) observed_mem).1 = Throw ResolverError.
Proof.
  apply (X15_customWidget_does_not_retry_after_an_error
           (fun _ => Throw ResolverError) observed_question [] ResolverError);
    reflexivity.
Defined.

Lemma X16_updateCustomWidget_then_read_witness :
  trace (customWidget sample_getCustomWidget
           (updateCustomWidget sample_getCustomWidget observed_mem).2).2 =
  [GetCustomWidget "q1"; GetCustomWidget "q1"].
Proof.
  destruct (X16_updateCustomWidget_then_read sample_getCustomWidget
              observed_question []) as [_ Hnone].
  apply Hnone; reflexivity.
Defined.

(** ** Style classes, in full *)

Lemma updateCssClasses_object q classes surveyCss :
  updateCssClasses q (CssObj classes) surveyCss =
  Ret (CssObj (overridden (surveyCss !! getType q) classes)).
Proof.
  unfold updateCssClasses, overridden.
  destruct (surveyCss !! getType q) as [[s|n|m]|]; try done.
  apply copyKeys_object.
Qed.

Lemma cssClasses_spec getCss q t :
  cssClasses getCss {| this := q; trace := t |} =
  if error_slot_ok getCss then
    let classes := overridden (getCss !! getType q) (generic_classes getCss) in
    match survey q with
    | Some s =>
        (Ret (CssObj (updateQuestionCssClasses_of s (name q) classes)),
         {| this := q; trace := t ++ [UpdateQuestionCssClasses (name q)] |})
    | None => (Ret (CssObj classes), {| this := q; trace := t |})
    end
  else (Throw TypeError, {| this := q; trace := t |}).
Proof.
  destruct (error_slot_ok getCss) eqn:Hok; [|by apply cssClasses_throws].
  unfold cssClasses.
  unfold mbind at 1, M_bind, get_this; simpl.
  rewrite copyCssClasses_object.
  unfold mbind at 1, M_bind, lift_outcome at 1; simpl.
  pose proof (generic_copies getCss) as Hgen.
  rewrite copyCssClasses_object in Hgen. unfold mbind at 1 in Hgen; simpl in Hgen.
  unfold mbind at 1, M_bind, lift_outcome at 1.
  rewrite Hgen, Hok.
  unfold mbind at 1, M_bind, lift_outcome at 1.
  rewrite updateCssClasses_object.
  by destruct (survey q).
Qed.

Lemma generic_classes_error surveyCss :
  is_Some (generic_classes surveyCss !! "error").
Proof.
  unfold generic_classes.
  destruct (error_slot surveyCss); rewrite lookup_insert_eq; eauto.
Qed.

(** X17. Reading [cssClasses] never changes the question.  It throws a
    TypeError, having called nothing, exactly when the copy of the generic
    [error] group finds a class name or a number to write into; otherwise
    it returns an object, and the survey's handler has been called once if
    a survey is attached and not at all if none is. *)
Theorem X17_cssClasses_reads_only getCss q t :
  let r := cssClasses getCss {| this := q; trace := t |} in
  this r.2 = q ∧
  (error_slot_ok getCss = false -> r = (Throw TypeError, {| this := q; trace := t |})) ∧
  (error_slot_ok getCss = true ->
   (∃ classes, r.1 = Ret (CssObj classes)) ∧
   trace r.2 = t ++ match survey q with
                    | Some _ => [UpdateQuestionCssClasses (name q)]
                    | None => []
                    end).
Proof.
  cbv zeta. rewrite cssClasses_spec.
  destruct (error_slot_ok getCss); cbv zeta.
  - destruct (survey q); cbn [fst snd this trace].
    + split; [done|]. split; [done|]. intros _. eauto.
    + split; [done|]. split; [done|]. intros _. rewrite app_nil_r. eauto.
  - split; [done|]. by split.
Qed.

(** X18. [copyCssClasses] into an object.  A class name that is not empty
    becomes the [root] and leaves the other keys; an object gives its value
    to each of its keys and leaves the other keys; nothing, the empty
    string, zero, any other number and the empty object leave the
    destination untouched, whatever the destination is.  Copying the same
    source a second time changes nothing. *)
Theorem X18_copyCssClasses dest :
  (forall s, s ≠ "" ->
     copyCssClasses (CssObj dest) (Some (CssStr s)) =
     Ret (CssObj (<["root" := CssStr s]> dest))) ∧
  (forall m, ∃ res,
     copyCssClasses (CssObj dest) (Some (CssObj m)) = Ret (CssObj res) ∧
     forall key, res !! key = match m !! key with
                              | Some v => Some v
                              | None => dest !! key
                              end) ∧
  (forall any source,
     source = None ∨ source = Some (CssStr "") ∨ (∃ n, source = Some (CssNum n))
     ∨ source = Some (CssObj ∅) ->
     copyCssClasses any source = Ret any) ∧
  (forall source res,
     copyCssClasses (CssObj dest) source = Ret res ->
     copyCssClasses res source = Ret res).
Proof.
  split; [|split; [|split]].
  - intros s Hs. rewrite copyCssClasses_object. unfold layered; simpl.
    by destruct (String.eqb_spec s "").
  - intros m. exists (m ∪ dest). rewrite copyCssClasses_object.
    split; [done|]. intros key. rewrite lookup_union.
    by destruct (m !! key), (dest !! key).
  - intros any source [-> | [-> | [[n ->] | ->]]].
    + done.
    + done.
    + unfold copyCssClasses; simpl. by destruct (Z.eqb n 0).
    + unfold copyCssClasses, copyKeys; simpl. by rewrite map_fold_empty.
  - intros source res. rewrite copyCssClasses_object.
    intros Heq. injection Heq as Heq. subst res.
    rewrite copyCssClasses_object. do 2 f_equal.
    unfold layered. destruct (css_falsy source); [done|].
    destruct source as [[s|n|m]|]; try done.
    + by rewrite insert_insert_eq.
    + by rewrite (assoc_L (∪)), (idemp_L (∪)).
Qed.

(** X19. The entry of the style sheet for the type of the question, with no
    survey attached.  A class name there, even the empty one, becomes the
    [root] of the result; with no entry, the [root] is the one of the
    generic [question] group, and a generic group that is the empty string
    gives none: the empty string counts as a per-type entry and does not
    count as a generic group. *)
Theorem X19_per_type_class_name getCss q t :
  survey q = None ->
  error_slot_ok getCss = true ->
  ∃ classes,
    cssClasses getCss {| this := q; trace := t |} =
      (Ret (CssObj classes), {| this := q; trace := t |}) ∧
    (forall s, getCss !! getType q = Some (CssStr s) ->
               classes !! "root" = Some (CssStr s)) ∧
    (forall s, getCss !! getType q = None ->
               getCss !! "question" = Some (CssStr s) ->
               classes !! "root" = if String.eqb s "" then None else Some (CssStr s)).
Proof.
  intros Hs Hok. rewrite cssClasses_spec, Hok, Hs. cbv zeta.
  eexists. split; [done|]. split.
  - intros s ->. simpl. apply lookup_insert_eq.
  - intros s -> Hq. simpl. unfold generic_classes, error_slot, layered.
    rewrite Hq; simpl. rewrite lookup_insert_ne by done.
    destruct (String.eqb s ""); [done|].
    rewrite lookup_insert_eq. done.
Qed.

(** X20. With no survey attached, the result of [cssClasses] has an
    [error] entry, always; when neither the generic [question] group nor
    the entry for the type of the question has a key [error], it is an
    object with the keys and values of the generic [error] group. *)
Theorem X20_cssClasses_has_an_error_entry getCss q t :
  survey q = None ->
  error_slot_ok getCss = true ->
  ∃ classes,
    (cssClasses getCss {| this := q; trace := t |}).1 = Ret (CssObj classes) ∧
    is_Some (classes !! "error") ∧
    (forall group,
       getCss !! "error" = Some (CssObj group) ->
       error_slot getCss = CssObj ∅ ->
       (forall m, getCss !! getType q = Some (CssObj m) -> m !! "error" = None) ->
       classes !! "error" = Some (CssObj group)).
Proof.
  intros Hs Hok. rewrite cssClasses_spec, Hok, Hs. cbv zeta.
  eexists. split; [done|].
  assert (Hover : forall entry classes,
            (forall m, entry = Some (CssObj m) -> m !! "error" = None) ->
            overridden entry classes !! "error" = classes !! "error").
  { intros [[s|n|m]|] classes Hm; simpl; try done.
    - by rewrite lookup_insert_ne.
    - rewrite lookup_union, (Hm m eq_refl). by destruct (classes !! "error"). }
  split.
  - destruct (getCss !! getType q) as [[s|n|m]|]; simpl;
      try apply generic_classes_error.
    + rewrite lookup_insert_ne by done. apply generic_classes_error.
    + rewrite lookup_union.
      destruct (generic_classes_error getCss) as [e ->].
      destruct (m !! "error"); simpl; eauto.
  - intros group Herr Hslot Hm. rewrite Hover by done.
    unfold generic_classes. rewrite Hslot, lookup_insert_eq.
    unfold layered. rewrite Herr; simpl. by rewrite (right_id_L ∅ (∪)).
Qed.

Lemma X18_copyCssClasses_witness :
  copyCssClasses (CssObj {[ "root" := CssStr "a" ]}) (Some (CssStr "b")) =
  Ret (CssObj {[ "root" := CssStr "b" ]}) ∧
  copyCssClasses (CssStr "a") (Some (CssObj ∅)) = Ret (CssStr "a").
Proof.
  destruct (X18_copyCssClasses {[ "root" := CssStr "a" ]}) as (Hs & _ & Hnone & _).
  split.
  - rewrite Hs by discriminate. by rewrite insert_singleton_eq.
  - apply Hnone. auto.
Defined.

Lemma X17_cssClasses_reads_only_witness :
  cssClasses odd_css observed_mem = (Throw TypeError, observed_mem).
Proof.
  destruct (X17_cssClasses_reads_only odd_css observed_question [])
    as (_ & Hthrow & _).
  apply Hthrow. reflexivity.
Defined.

Lemma X19_per_type_class_name_witness :
  ∃ classes,
    cssClasses {[ "questionbase" := CssStr "" ]}
      {| this := sample_question; trace := [] |} =
      (Ret (CssObj classes), {| this := sample_question; trace := [] |}) ∧
    classes !! "root" = Some (CssStr "").
Proof.
  destruct (X19_per_type_class_name {[ "questionbase" := CssStr "" ]}
              sample_question []) as (classes & Hres & Hstr & _);
    [reflexivity|reflexivity|].
  exists classes. split; [exact Hres|]. apply Hstr. reflexivity.
Defined.

Lemma X20_cssClasses_has_an_error_entry_witness :
  ∃ classes,
    (cssClasses sample_css {| this := sample_question; trace := [] |}).1
      = Ret (CssObj classes) ∧
    classes !! "error" = Some (CssObj {[ "root" := CssStr "sv_q_erbox" ]}).
Proof.
  destruct (X20_cssClasses_has_an_error_entry sample_css sample_question [])
    as (classes & Hres & _ & Herr); [reflexivity|reflexivity|].
  exists classes. split; [exact Hres|].
  apply Herr; [reflexivity|reflexivity|].
  intros m Heq. injection Heq as Heq. subst m. reflexivity.
Defined.

(** ** A new question *)

(** X21. A new question has the name it was given and reads the declared
    defaults: visible, no [visibleIf], visible index -1, on a new line, no
    width, no render width, no indents.  It has no survey, no subscriber,
    no condition runner and has not asked for its widget; [runCondition]
    does nothing to it. *)
Theorem X21_a_new_question_has_the_defaults evaluate given counter values t :
  let q := (new_QuestionBase given counter).1 in
  name q = given ∧
  visible q = true ∧ isVisible q = Some true ∧
  visibleIf q = "" ∧
  visibleIndex q = -1 ∧
  startWithNewLine q = true ∧
  width q = "" ∧ renderWidth q = "" ∧
  indent q = 0 ∧ rightIndent q = 0 ∧
  unobserved q ∧
  conditionRunner q = None ∧
  isCustomWidgetRequested q = false ∧ customWidgetValue q = None ∧
  runCondition evaluate values {| this := q; trace := t |}
    = (Ret tt, {| this := q; trace := t |}).
Proof.
  cbv zeta. repeat split; try done.
Qed.

(** ** A question nobody listens to *)

Lemma fired_None_callbacks q h :
  (forall h, callbacks q h = None) -> fired (callbacks q h) = [].
Proof. intros H. by rewrite H. Qed.

Lemma within_quiet F m m' :
  (forall e, may_emit F e = true -> is_subscriber_call e = false) ->
  within F m m' ->
  count_events is_subscriber_call (trace m') = count_events is_subscriber_call (trace m).
Proof.
  intros HF ((evs & -> & Hevs) & _).
  rewrite count_events_app, (count_events_none _ evs); [lia|].
  revert Hevs. apply forallb_weaken. intros e He.
  apply negb_true_iff. by apply HF.
Qed.

Section Unobserved.

Variable evaluate : string -> gmap string Value -> Outcome bool.
Variable getCustomWidget : QuestionBase -> Outcome (option QuestionCustomWidget).
Variable getCss : gmap string Css.

#[local] Abbreviation run_op := (run_op evaluate getCustomWidget getCss).
#[local] Abbreviation run_ops := (run_ops evaluate getCustomWidget getCss).
#[local] Abbreviation heard t := (count_events is_subscriber_call t).

Lemma unobserved_run_op op m :
  is_wiring op = false -> unobserved (this m) -> unobserved (this (run_op op m).2).
Proof.
  intros Hop (Hs & Hc & Hl).
  destruct (run_op_within evaluate getCustomWidget getCss op m)
    as (_ & _ & _ & _ & _ & Hc' & Hs' & _ & Hl').
  split; [|split].
  - rewrite Hs'; [done|]. by destruct op.
  - intros h. rewrite Hc'; [done|]. by destruct op.
  - by rewrite Hl'.
Qed.

Lemma onLocaleChanged_nobody q t :
  localeChanged q = [] ->
  onLocaleChanged {| this := q; trace := t |} = (Ret tt, {| this := q; trace := t |}).
Proof.
  intros Hl. unfold onLocaleChanged, mbind, M_bind, get_this; simpl. by rewrite Hl.
Qed.

Lemma quiet_by_footprint op m :
  (forall e, may_emit (footprint_of op) e = true -> is_subscriber_call e = false) ->
  heard (trace (run_op op m).2) = heard (trace m).
Proof.
  intros HF. apply (within_quiet (footprint_of op)); [done|].
  apply run_op_within.
Qed.

Lemma quiet_run_op op m :
  is_wiring op = false ->
  unobserved (this m) ->
  heard (trace (run_op op m).2) = heard (trace m).
Proof.
  intros Hop (Hs & Hc & Hl). destruct m as [q t]. simpl in Hs, Hc, Hl.
  assert (Hnotified : forall b, notified q b = []).
  { intros b. unfold notified. by rewrite Hs. }
  destruct op; try done;
    try (apply quiet_by_footprint; intros []; done).
  all: unfold run_op.
  - rewrite set_visible_spec.
    destruct (Bool.eqb val (visible q)); [done|]. cbn [fst snd trace].
    unfold visibilityChangedCallback, rowVisibilityChangedCallback.
    by rewrite !fired_None_callbacks, Hnotified, !app_nil_r.
  - rewrite set_startWithNewLine_spec.
    destruct (Bool.eqb (startWithNewLine q) val); [done|]. cbn [fst snd trace].
    unfold startWithNewLineChangedCallback.
    by rewrite !fired_None_callbacks, !app_nil_r.
  - rewrite set_renderWidth_spec.
    destruct (String.eqb val (renderWidth q)); [done|]. cbn [fst snd trace].
    unfold renderWidthChangedCallback.
    by rewrite !fired_None_callbacks, !app_nil_r.
  - rewrite set_indent_spec.
    destruct (Z.eqb val (indent q)); [done|]. cbn [fst snd trace].
    unfold renderWidthChangedCallback.
    by rewrite !fired_None_callbacks, !app_nil_r.
  - rewrite set_rightIndent_spec.
    destruct (Z.eqb val (rightIndent q)); [done|]. cbn [fst snd trace].
    unfold renderWidthChangedCallback.
    by rewrite !fired_None_callbacks, !app_nil_r.
  - unfold mbind, M_bind. rewrite setVisibleIndex_spec.
    destruct (Z.eqb (visibleIndex q) val); [done|]. cbn [fst snd trace].
    unfold visibleIndexChangedCallback.
    by rewrite !fired_None_callbacks, !app_nil_r.
  - destruct (String.eqb_spec (visibleIf q) "") as [He|Hne].
    { by rewrite runCondition_empty. }
    assert (Hbuilt : heard (constructed q (visibleIf q)
                              ++ [RunnerRun (visibleIf q) values]) = 0%nat).
    { unfold constructed. by destruct (conditionRunner q). }
    destruct (evaluate (visibleIf q) values) as [b|e] eqn:Hev.
    + rewrite (runCondition_result evaluate values q t b Hne Hev). cbv zeta.
      destruct (Bool.eqb b (visible q)); cbn [fst snd trace].
      * rewrite count_events_app, Hbuilt. lia.
      * unfold visibilityChangedCallback, rowVisibilityChangedCallback.
        rewrite !fired_None_callbacks, Hnotified, !app_nil_r by done.
        rewrite count_events_app, Hbuilt. lia.
    + rewrite (runCondition_throws evaluate values q t e Hne Hev).
      cbn [fst snd trace]. rewrite count_events_app, Hbuilt. lia.
  - unfold onSurveyLoad, read, mbind, M_bind; simpl.
    rewrite fireCallback_fired; simpl.
    unfold surveyLoadCallback. by rewrite fired_None_callbacks, app_nil_r.
  - by rewrite onLocaleChanged_nobody.
  - unfold mbind, M_bind. rewrite cssClasses_spec, Hs.
    by destruct (error_slot_ok getCss).
Qed.

(** X22. A question nobody listens to (no survey, no callback in any slot,
    no handler of [localeChanged]) calls nobody: over any run of
    operations in which the client attaches no survey and assigns no
    callback, no callback, no handler and no method of a survey is called,
    whatever changes; an empty callback slot is fired safely. *)
Theorem X22_unobserved_questions_call_nobody ops m :
  unobserved (this m) ->
  forallb (fun op => negb (is_wiring op)) ops = true ->
  count_events is_subscriber_call (trace (run_ops ops m))
  = count_events is_subscriber_call (trace m) ∧
  unobserved (this (run_ops ops m)).
Proof.
  revert m. induction ops as [|op ops IH]; intros m Hm Hops; simpl; [done|].
  simpl in Hops. apply andb_true_iff in Hops as [Hop Hops].
  apply negb_true_iff in Hop.
  destruct (IH (run_op op m).2) as [Hcount Hun];
    [by apply unobserved_run_op|done|].
  split; [|done]. rewrite Hcount. by apply quiet_run_op.
Qed.

End Unobserved.

Lemma X22_unobserved_questions_call_nobody_witness :
  count_events is_subscriber_call
    (trace (run_ops sample_evaluate sample_getCustomWidget sample_css
              [SetVisible false; SetIndent 2; RunCondition ∅; OnSurveyLoad;
               ReadCssClasses]
              {| this := sample_question; trace := [] |})) = 0%nat.
Proof.
  destruct (X22_unobserved_questions_call_nobody
              sample_evaluate sample_getCustomWidget sample_css
              [SetVisible false; SetIndent 2; RunCondition ∅; OnSurveyLoad;
               ReadCssClasses]
              {| this := sample_question; trace := [] |})
    as [Hcount _]; [by repeat split|reflexivity|].
  rewrite Hcount. reflexivity.
Defined.

(** ** [runCondition] twice *)

Section ConditionsTwice.

Variable evaluate : string -> gmap string Value -> Outcome bool.

(** X23. [runCondition] settles at once, whatever the expression and its
    value: a second call with the same values, the evaluator answering the
    same, leaves the question as the first call left it, fires no callback
    and does not notify the survey; it builds no runner and only evaluates
    the expression again. *)
Theorem X23_runCondition_settles values q t b :
  visibleIf q ≠ "" ->
  evaluate (visibleIf q) values = Ret b ->
  let r1 := runCondition evaluate values {| this := q; trace := t |} in
  let r2 := runCondition evaluate values r1.2 in
  r2.1 = Ret tt ∧
  this r2.2 = this r1.2 ∧
  trace r2.2 = trace r1.2 ++ [RunnerRun (visibleIf q) values].
Proof.
  intros Hne Hev. cbv zeta.
  rewrite (runCondition_result evaluate values q t b Hne Hev). cbv zeta.
  set (q1 := with_conditionRunner (Some {| expression := visibleIf q |}) q).
  assert (Hsettled : forall q2 t2,
            visibleIf q2 = visibleIf q -> visible q2 = b ->
            conditionRunner q2 = Some {| expression := visibleIf q |} ->
            with_conditionRunner (Some {| expression := visibleIf q |}) q2 = q2 ->
            let r2 := runCondition evaluate values {| this := q2; trace := t2 |} in
            r2.1 = Ret tt ∧ this r2.2 = q2 ∧
            trace r2.2 = t2 ++ [RunnerRun (visibleIf q) values]).
  { intros q2 t2 Hvi Hvis Hrun Hsame. cbv zeta.
    rewrite (runCondition_result evaluate values q2 t2 b); rewrite ?Hvi; try done.
    cbv zeta. rewrite Hvis, Bool.eqb_reflx, Hsame. unfold constructed.
    by rewrite Hrun. }
  destruct (Bool.eqb_spec b (visible q)) as [Hb|Hb]; cbn [fst snd this trace].
  - apply Hsettled; try done.
  - apply Hsettled; try done.
    + unfold visibleIf. by rewrite getPropertyValue_stored_ne.
    + apply visible_stored.
Qed.

End ConditionsTwice.

Lemma X23_runCondition_settles_witness :
  this (runCondition sample_evaluate ∅
          (runCondition sample_evaluate ∅
             {| this := stored "visibleIf" (VStr "{x} = 1") observed_question;
                trace := [] |}).2).2
  = this (runCondition sample_evaluate ∅
            {| this := stored "visibleIf" (VStr "{x} = 1") observed_question;
               trace := [] |}).2.
Proof.
  apply (X23_runCondition_settles sample_evaluate ∅
           (stored "visibleIf" (VStr "{x} = 1") observed_question) [] false);
    [vm_compute; discriminate|reflexivity].
Defined.
